(** * MCP Database Server: a shallow embedding of [mcp_database_server.py]

    The gateway [MCPDatabaseServer.receive_client_request] parses a raw
    request, consults an optional Redis cache, routes to one of four backend
    handlers, populates the cache and wraps the outcome in an envelope.

    What is embedded and how:
    - Python values are the inductive [pyval]; dictionaries are association
      lists with string keys in insertion order (first binding wins).
    - Exceptions are values of [exn]; fallible code lives in [result] and the
      handlers in a writer-over-result monad [H] that records the driver
      calls they make.  Only subclasses of [Exception] are modelled:
      [KeyboardInterrupt] and the like are outside the model.
    - The database drivers, the Redis client and the file system are external
      collaborators: their answers are the fields of a [World]; the content
      of the Redis store is explicit state, a [gmap string cache_text].
    - [logging] calls are not embedded: they touch none of the modelled state.
    - Strings are Rocq strings (bytes); [str.lower] lower-cases [A]-[Z] and
      leaves every other byte alone.  No character outside ASCII lower-cases
      to a letter of the keywords compared against here.
    - Floating point values are not part of [pyval]; the modification time
      used for the envelope timestamp is carried already rendered by [str]. *)

From stdpp Require Import gmap strings pretty.
From Stdlib Require Import ZArith Lia List Ascii String.
Import ListNotations.
Set Warnings "-register-all".
Local Open Scope string_scope.
Local Open Scope list_scope.
Local Open Scope Z_scope.

(* ===================================================================== *)
(** ** Python values *)
(* ===================================================================== *)

(** [PObj cls s r] is a driver-native object (ObjectId, datetime, Decimal,
    ...) of class [cls] whose [str()] is [s] and whose [repr()] is [r]; it
    is truthy and has none of the methods of [str] or [dict]. *)
Inductive pyval : Type :=
| PNone
| PBool (b : bool)
| PInt (z : Z)
| PStr (s : string)
| PList (l : list pyval)
| PDict (kvs : list (string * pyval))
| PObj (cls : string) (str_form : string) (repr_form : string).

(** Induction principle that reaches inside lists and dictionaries. *)
Section pyval_nested_ind.
Variable P : pyval -> Prop.
Hypothesis HNone : P PNone.
Hypothesis HBool : forall b, P (PBool b).
Hypothesis HInt : forall z, P (PInt z).
Hypothesis HStr : forall s, P (PStr s).
Hypothesis HList : forall l, Forall P l -> P (PList l).
Hypothesis HDict : forall kvs, Forall (fun kv => P (snd kv)) kvs -> P (PDict kvs).
Hypothesis HObj : forall c s r, P (PObj c s r).

Fixpoint pyval_nested_ind (v : pyval) : P v :=
  match v with
  | PNone => HNone
  | PBool b => HBool b
  | PInt z => HInt z
  | PStr s => HStr s
  | PList l =>
      HList l ((fix go (l : list pyval) : Forall P l :=
                  match l with
                  | [] => Forall_nil P
                  | x :: r => @Forall_cons _ P x r (pyval_nested_ind x) (go r)
                  end) l)
  | PDict kvs =>
      HDict kvs ((fix go (l : list (string * pyval))
                    : Forall (fun kv => P (snd kv)) l :=
                    match l with
                    | [] => Forall_nil _
                    | kv :: r => @Forall_cons _ _ kv r (pyval_nested_ind (snd kv)) (go r)
                    end) kvs)
  | PObj c s r => HObj c s r
  end.
End pyval_nested_ind.

(** Truth value of an object, as tested by [if x:], [x and y], [x or y]. *)
Definition py_truthy (v : pyval) : bool :=
  match v with
  | PNone => false
  | PBool b => b
  | PInt z => negb (z =? 0)
  | PStr s => negb (String.eqb s "")
  | PList l => match l with [] => false | _ => true end
  | PDict kvs => match kvs with [] => false | _ => true end
  | PObj _ _ _ => true
  end.

(** [type(v).__name__], as it appears in the interpreter's messages. *)
Definition type_name (v : pyval) : string :=
  match v with
  | PNone => "NoneType"
  | PBool _ => "bool"
  | PInt _ => "int"
  | PStr _ => "str"
  | PList _ => "list"
  | PDict _ => "dict"
  | PObj c _ _ => c
  end.

(* --------------------------------------------------------------------- *)
(** *** Strings: [lower], [startswith], [repr], [str] *)
(* --------------------------------------------------------------------- *)

Definition ascii_lower (c : ascii) : ascii :=
  let n := N_of_ascii c in
  if ((65 <=? n) && (n <=? 90))%N then ascii_of_N (n + 32) else c.

Fixpoint str_lower (s : string) : string :=
  match s with
  | EmptyString => EmptyString
  | String c r => String (ascii_lower c) (str_lower r)
  end.

Definition startswith (s p : string) : bool := String.prefix p s.

Fixpoint str_contains (c : ascii) (s : string) : bool :=
  match s with
  | EmptyString => false
  | String d r => Ascii.eqb c d || str_contains c r
  end.

Definition hex_digit (n : N) : ascii :=
  if (n <? 10)%N then ascii_of_N (48 + n) else ascii_of_N (87 + n).

Definition squote : ascii := ascii_of_N 39.
Definition dquote : ascii := ascii_of_N 34.
Definition backslash : ascii := ascii_of_N 92.

(** One character of [repr] of a [str] delimited by [q]. *)
Definition repr_char (q c : ascii) : string :=
  let n := N_of_ascii c in
  if Ascii.eqb c backslash then String backslash (String backslash "")
  else if Ascii.eqb c q then String backslash (String q "")
  else if (n =? 10)%N then String backslash "n"
  else if (n =? 13)%N then String backslash "r"
  else if (n =? 9)%N then String backslash "t"
  else if ((n <? 32) || (n =? 127))%N then
    String backslash (String "x" (String (hex_digit (n / 16)) (String (hex_digit (n mod 16)) "")))
  else String c "".

Fixpoint repr_chars (q : ascii) (s : string) : string :=
  match s with
  | EmptyString => EmptyString
  | String c r => repr_char q c +:+ repr_chars q r
  end.

(** [repr] of a [str]: single quotes, unless the text holds a single quote
    and no double quote. *)
Definition repr_str (s : string) : string :=
  let q := if str_contains squote s && negb (str_contains dquote s)
           then dquote else squote in
  String q (repr_chars q s) +:+ String q "".

Fixpoint join (sep : string) (l : list string) : string :=
  match l with
  | [] => ""
  | [x] => x
  | x :: r => x +:+ sep +:+ join sep r
  end.

Fixpoint py_repr (v : pyval) : string :=
  match v with
  | PNone => "None"
  | PBool true => "True"
  | PBool false => "False"
  | PInt z => pretty z
  | PStr s => repr_str s
  | PList l => "[" +:+ join ", " (List.map py_repr l) +:+ "]"
  | PDict kvs =>
      "{" +:+ join ", " (List.map (fun kv => repr_str (fst kv) +:+ ": " +:+ py_repr (snd kv)) kvs)
          +:+ "}"
  | PObj _ _ r => r
  end.

Definition py_str (v : pyval) : string :=
  match v with
  | PStr s => s
  | PObj _ s _ => s
  | _ => py_repr v
  end.

(* ===================================================================== *)
(** ** Exceptions and results *)
(* ===================================================================== *)

Inductive exn_class : Type :=
| AttributeError | KeyError | TypeError | ValueError | RuntimeError
| OSError | JSONDecodeError | RedisError | DriverError.

(** An exception: its class and [str(e)]. *)
Record exn : Type := Exn { exn_cls : exn_class; exn_msg : string }.

Inductive result (A : Type) : Type :=
| Ok (a : A)
| Raise (e : exn).
Arguments Ok {A} a.
Arguments Raise {A} e.

Definition rbind {A B} (m : result A) (f : A -> result B) : result B :=
  match m with
  | Ok a => f a
  | Raise e => Raise e
  end.

Notation "'let?' x ':=' m 'in' k" := (rbind m (fun x => k))
  (at level 10, x name, m at level 100, k at level 200, only parsing).

Definition has_no_attribute (v : pyval) (attr : string) : exn :=
  Exn AttributeError
      ("'" +:+ type_name v +:+ "' object has no attribute '" +:+ attr +:+ "'").

(* --------------------------------------------------------------------- *)
(** *** Dictionary and attribute access *)
(* --------------------------------------------------------------------- *)

Fixpoint dict_lookup (k : string) (kvs : list (string * pyval)) : option pyval :=
  match kvs with
  | [] => None
  | (k', v) :: r => if String.eqb k k' then Some v else dict_lookup k r
  end.

(** [d[k] = v]: overwrite in place, or append a new key. *)
Fixpoint dict_set (k : string) (v : pyval) (kvs : list (string * pyval))
  : list (string * pyval) :=
  match kvs with
  | [] => [(k, v)]
  | (k', v') :: r =>
      if String.eqb k k' then (k', v) :: r else (k', v') :: dict_set k v r
  end.

(** [dict(pairs)]: later bindings of a key overwrite earlier ones. *)
Definition dict_of_pairs (pairs : list (string * pyval)) : list (string * pyval) :=
  fold_left (fun d kv => dict_set (fst kv) (snd kv) d) pairs [].

(** [d.get(k, default)]. *)
Definition py_get (d : pyval) (k : string) (default : pyval) : result pyval :=
  match d with
  | PDict kvs => Ok (match dict_lookup k kvs with Some v => v | None => default end)
  | _ => Raise (has_no_attribute d "get")
  end.

(** [d[k]] for a string key [k]. *)
Definition py_getitem (d : pyval) (k : string) : result pyval :=
  match d with
  | PDict kvs =>
      match dict_lookup k kvs with
      | Some v => Ok v
      | None => Raise (Exn KeyError (repr_str k))
      end
  | PList _ => Raise (Exn TypeError "list indices must be integers or slices, not str")
  | PStr _ => Raise (Exn TypeError "string indices must be integers, not 'str'")
  | _ => Raise (Exn TypeError ("'" +:+ type_name d +:+ "' object is not subscriptable"))
  end.

(** [v.lower()]: only [str] has the method among the modelled values. *)
Definition py_lower (v : pyval) : result string :=
  match v with
  | PStr s => Ok (str_lower s)
  | _ => Raise (has_no_attribute v "lower")
  end.

(* ===================================================================== *)
(** ** The request *)
(* ===================================================================== *)

(** [DatabaseRequest].  [db_type] is always the outcome of [str.lower];
    the other fields hold whatever the raw mapping held. *)
Record DatabaseRequest : Type := {
  db_type : string;
  operation : pyval;
  query : pyval;
  parameters : pyval;
  cache_key : pyval
}.

(** [_parse_request]. *)
Definition parse_request (request_data : pyval) : result DatabaseRequest :=
  let? dbt := py_get request_data "db_type" (PStr "") in
  let? dbt := py_lower dbt in
  let? op := py_get request_data "operation" (PStr "") in
  let? q := py_get request_data "query" PNone in
  let? params := py_get request_data "parameters" (PDict []) in
  let? ck := py_get request_data "cache_key" PNone in
  Ok {| db_type := dbt; operation := op; query := q;
        parameters := params; cache_key := ck |}.

(* ===================================================================== *)
(** ** External collaborators *)
(* ===================================================================== *)

Inductive Backend : Type := Sqlite | Postgresql | Mysql | Mongodb.

(** What a driver cursor answers after [execute].  [R] is the type of a
    fetched row: for [sqlite3.Row] and [RealDictRow] the mapping that
    [dict(row)] builds, for pymysql a tuple of values. *)
Record Cursor (R : Type) : Type := {
  description : option (list string);
  fetchall : result (list R);
  rowcount : Z;
  lastrowid : pyval
}.
Arguments description {R} _.
Arguments fetchall {R} _.
Arguments rowcount {R} _.
Arguments lastrowid {R} _.

Definition Row : Type := list (string * pyval).

(** Everything outside the server that one call of the gateway can observe.
    The [*_AVAILABLE] flags are the module-level import guards. *)
Record World : Type := {
  REDIS_AVAILABLE : bool;
  POSTGRESQL_AVAILABLE : bool;
  RealDictCursor_present : bool;
  MYSQL_AVAILABLE : bool;
  MONGODB_AVAILABLE : bool;
  (* [str(Path(__file__).stat().st_mtime)] at the time of the call *)
  src_stat : result string;
  (* [os.makedirs(os.path.dirname(db_path), exist_ok=True)] *)
  os_makedirs : pyval -> result unit;
  sqlite_connect : pyval -> result unit;
  sqlite_execute : pyval -> pyval -> result (Cursor Row);
  sqlite_commit : result unit;
  (* host, port, database, user, password *)
  pg_connect : list pyval -> result unit;
  pg_execute : pyval -> pyval -> result (Cursor Row);
  pg_commit : result unit;
  (* host, port, user, password, database *)
  mysql_connect : list pyval -> result unit;
  mysql_execute : pyval -> pyval -> result (Cursor (list pyval));
  mysql_commit : result unit;
  (* host, port *)
  mongo_client : pyval -> pyval -> result unit;
  (* database name, then collection name, then the call's arguments *)
  mongo_find : pyval -> pyval -> pyval -> result (list Row);
  mongo_insert_one : pyval -> pyval -> pyval -> result pyval;
  mongo_update_many : pyval -> pyval -> pyval -> pyval -> result (Z * Z);
  mongo_delete_many : pyval -> pyval -> pyval -> result Z;
  (* faults of the Redis connection: [None] means the command goes through *)
  redis_ping : pyval -> pyval -> option exn;
  redis_get_exn : pyval -> option exn;
  redis_setex_exn : pyval -> pyval -> option exn
}.

(** The calls a handler makes to its driver, in order. *)
Inductive Event : Type :=
| EvMakedirs (path : pyval)
| EvConnect (k : Backend)
| EvExecute (k : Backend) (q params : pyval)
| EvFetchAll (k : Backend)
| EvCommit (k : Backend)
| EvClose (k : Backend)
| EvFind (coll q : pyval)
| EvInsertOne (coll doc : pyval)
| EvUpdateMany (coll q upd : pyval)
| EvDeleteMany (coll q : pyval).

(* --------------------------------------------------------------------- *)
(** *** The handler monad: a trace of driver calls and a result *)
(* --------------------------------------------------------------------- *)

Definition H (A : Type) : Type := (list Event * result A)%type.

Definition hret {A} (a : A) : H A := ([], Ok a).
Definition hraise {A} (e : exn) : H A := ([], Raise e).
Definition lift {A} (r : result A) : H A := ([], r).
(** A driver call: it is recorded whether or not it raises. *)
Definition call {A} (ev : Event) (r : result A) : H A := ([ev], r).

Definition hbind {A B} (m : H A) (f : A -> H B) : H B :=
  match m with
  | (t, Ok a) => let '(t', r) := f a in (t ++ t', r)
  | (t, Raise e) => (t, Raise e)
  end.

(** [try: body finally: ev] where [ev] itself does not raise. *)
Definition finally {A} (ev : Event) (body : H A) : H A :=
  (fst body ++ [ev], snd body).

Notation "'let*' x ':=' m 'in' k" := (hbind m (fun x => k))
  (at level 10, x name, m at level 100, k at level 200, only parsing).

(* ===================================================================== *)
(** ** The server *)
(* ===================================================================== *)

(** [redis_client] tells whether [self.redis_client] holds a client
    ([true]) or [None] ([false]). *)
Record Server : Type := {
  config : pyval;
  redis_client : bool
}.

(** [_load_default_config]. *)
Definition load_default_config (w : World) : pyval :=
  PDict
    [ ("sqlite", PDict [("enabled", PBool true); ("db_path", PStr "./data/app.db")]);
      ("postgresql",
        PDict [("enabled", PBool (POSTGRESQL_AVAILABLE w)); ("host", PStr "localhost");
               ("port", PInt 5432); ("database", PStr "mcp_db");
               ("user", PStr "postgres"); ("password", PStr "password")]);
      ("mysql",
        PDict [("enabled", PBool (MYSQL_AVAILABLE w)); ("host", PStr "localhost");
               ("port", PInt 3306); ("database", PStr "mcp_db");
               ("user", PStr "root"); ("password", PStr "password")]);
      ("mongodb",
        PDict [("enabled", PBool (MONGODB_AVAILABLE w)); ("host", PStr "localhost");
               ("port", PInt 27017); ("database", PStr "mcp_db")]);
      ("redis",
        PDict [("enabled", PBool (REDIS_AVAILABLE w)); ("host", PStr "localhost");
               ("port", PInt 6379); ("ttl", PInt 3600)]) ].

(** [__init__]: [cfg] is the [config] argument, [PNone] when omitted.  A
    failing [ping] leaves the server without a cache; a [redis] entry that is
    no mapping makes the constructor itself raise. *)
Definition init (w : World) (cfg : pyval) : result Server :=
  let config := if py_truthy cfg then cfg else load_default_config w in
  let? enabled :=
    if REDIS_AVAILABLE w then
      let? r := py_get config "redis" (PDict []) in
      let? en := py_get r "enabled" (PBool false) in
      Ok (py_truthy en)
    else Ok false in
  if enabled then
    let connected :=
      let? r := py_getitem config "redis" in
      let? host := py_get r "host" (PStr "localhost") in
      let? port := py_get r "port" (PInt 6379) in
      match redis_ping w host port with
      | None => Ok tt
      | Some e => Raise e
      end in
    match connected with
    | Ok _ => Ok {| config := config; redis_client := true |}
    | Raise _ => Ok {| config := config; redis_client := false |}
    end
  else Ok {| config := config; redis_client := false |}.

(* --------------------------------------------------------------------- *)
(** *** Relational handlers *)
(* --------------------------------------------------------------------- *)

(** The test shared by the three relational handlers,
    [request.operation.lower() == 'select' or
     request.query.lower().startswith('select')]:
    the right operand is evaluated only when the left one is false. *)
Definition relational_is_read (req : DatabaseRequest) : result bool :=
  let? op := py_lower (operation req) in
  if String.eqb op "select" then Ok true
  else
    let? q := py_lower (query req) in
    Ok (startswith q "select").

(** [not AVAILABLE or not self.config[name]['enabled']]. *)
Definition not_available (srv : Server) (available : bool) (name : string)
  : result bool :=
  if negb available then Ok true
  else
    let? sec := py_getitem (config srv) name in
    let? en := py_getitem sec "enabled" in
    Ok (negb (py_truthy en)).

(** [request.parameters or []], the parameters the SQLite handler binds. *)
Definition sqlite_params (req : DatabaseRequest) : pyval :=
  if py_truthy (parameters req) then parameters req else PList [].

(** [_handle_sqlite].  The implicit commit or rollback that leaving the
    [with] block performs on the connection is not recorded. *)
Definition handle_sqlite (srv : Server) (w : World) (req : DatabaseRequest) : H pyval :=
  let* sec := lift (py_getitem (config srv) "sqlite") in
  let* en := lift (py_getitem sec "enabled") in
  if negb (py_truthy en) then hraise (Exn RuntimeError "SQLite not enabled")
  else
    let* sec := lift (py_getitem (config srv) "sqlite") in
    let* db_path := lift (py_getitem sec "db_path") in
    let* _ := call (EvMakedirs db_path) (os_makedirs w db_path) in
    let* _ := call (EvConnect Sqlite) (sqlite_connect w db_path) in
    let* read := lift (relational_is_read req) in
    let params := sqlite_params req in
    if read then
      let* cur := call (EvExecute Sqlite (query req) params)
                       (sqlite_execute w (query req) params) in
      let* rows := call (EvFetchAll Sqlite) (fetchall cur) in
      hret (PList (List.map PDict rows))
    else
      let* cur := call (EvExecute Sqlite (query req) params)
                       (sqlite_execute w (query req) params) in
      let* _ := call (EvCommit Sqlite) (sqlite_commit w) in
      hret (PDict [("affected_rows", PInt (rowcount cur));
                   ("lastrowid", lastrowid cur)]).

(** [_handle_postgresql].  [psycopg2] is bound in the module exactly when
    [POSTGRESQL_AVAILABLE] holds, so the second guard of the source never
    fires after the first one passed. *)
Definition handle_postgresql (srv : Server) (w : World) (req : DatabaseRequest)
  : H pyval :=
  let* off := lift (not_available srv (POSTGRESQL_AVAILABLE w) "postgresql") in
  if off then hraise (Exn RuntimeError "PostgreSQL not available or not enabled")
  else if negb (RealDictCursor_present w) then
    hraise (Exn RuntimeError
      "psycopg2.extras.RealDictCursor is not available. Please install the correct psycopg2 version.")
  else
    let* cfg := lift (py_getitem (config srv) "postgresql") in
    let* host := lift (py_getitem cfg "host") in
    let* port := lift (py_getitem cfg "port") in
    let* database := lift (py_getitem cfg "database") in
    let* user := lift (py_getitem cfg "user") in
    let* password := lift (py_getitem cfg "password") in
    let* _ := call (EvConnect Postgresql)
                   (pg_connect w [host; port; database; user; password]) in
    finally (EvClose Postgresql)
      (let* cur := call (EvExecute Postgresql (query req) (parameters req))
                        (pg_execute w (query req) (parameters req)) in
       let* read := lift (relational_is_read req) in
       if read then
         let* rows := call (EvFetchAll Postgresql) (fetchall cur) in
         hret (PList (List.map PDict rows))
       else
         let* _ := call (EvCommit Postgresql) (pg_commit w) in
         hret (PDict [("affected_rows", PInt (rowcount cur))])).

(** [for desc in cursor.description] on a cursor without a result set. *)
Definition iter_description (d : option (list string)) : result (list string) :=
  match d with
  | Some cols => Ok cols
  | None => Raise (Exn TypeError "'NoneType' object is not iterable")
  end.

(** [_handle_mysql].  [MYSQL_DRIVER] is ['pymysql'] exactly when
    [MYSQL_AVAILABLE] holds, so past the first guard the driver is found. *)
Definition handle_mysql (srv : Server) (w : World) (req : DatabaseRequest) : H pyval :=
  let* off := lift (not_available srv (MYSQL_AVAILABLE w) "mysql") in
  if off then hraise (Exn RuntimeError "MySQL not available or not enabled")
  else
    let* cfg := lift (py_getitem (config srv) "mysql") in
    let* host := lift (py_getitem cfg "host") in
    let* port := lift (py_getitem cfg "port") in
    let* user := lift (py_getitem cfg "user") in
    let* password := lift (py_getitem cfg "password") in
    let* database := lift (py_getitem cfg "database") in
    let* _ := call (EvConnect Mysql)
                   (mysql_connect w [host; port; user; password; database]) in
    finally (EvClose Mysql)
      (let* cur := call (EvExecute Mysql (query req) (parameters req))
                        (mysql_execute w (query req) (parameters req)) in
       let* read := lift (relational_is_read req) in
       if read then
         let* columns := lift (iter_description (description cur)) in
         let* rows := call (EvFetchAll Mysql) (fetchall cur) in
         hret (PList (List.map (fun row => PDict (dict_of_pairs (combine columns row)))
                               rows))
       else
         let* _ := call (EvCommit Mysql) (mysql_commit w) in
         hret (PDict [("affected_rows", PInt (rowcount cur))])).

(* --------------------------------------------------------------------- *)
(** *** Document-store handler *)
(* --------------------------------------------------------------------- *)

(** [if '_id' in doc: doc['_id'] = str(doc['_id'])]. *)
Definition stringify_id (doc : Row) : Row :=
  match dict_lookup "_id" doc with
  | Some v => dict_set "_id" (PStr (py_str v)) doc
  | None => doc
  end.

(** [v == 'lit']: a [str] equals only a [str] with the same characters. *)
Definition py_eq_str (v : pyval) (lit : string) : bool :=
  match v with
  | PStr s => String.eqb s lit
  | _ => false
  end.

(** [_handle_mongodb].  As for psycopg2, the guard on [pymongo] being bound
    cannot fire once [MONGODB_AVAILABLE] passed.  The operation name is
    compared with [==], without any case folding. *)
Definition handle_mongodb (srv : Server) (w : World) (req : DatabaseRequest)
  : H pyval :=
  let* off := lift (not_available srv (MONGODB_AVAILABLE w) "mongodb") in
  if off then hraise (Exn RuntimeError "MongoDB not available or not enabled")
  else
    let* cfg := lift (py_getitem (config srv) "mongodb") in
    let* host := lift (py_getitem cfg "host") in
    let* port := lift (py_getitem cfg "port") in
    let* _ := call (EvConnect Mongodb) (mongo_client w host port) in
    finally (EvClose Mongodb)
      (let* db := lift (py_getitem cfg "database") in
       if py_eq_str (operation req) "find" then
           let* coll := lift (py_get (parameters req) "collection" (PStr "default")) in
           let* q := lift (py_get (parameters req) "query" (PDict [])) in
           let* docs := call (EvFind coll q) (mongo_find w db coll q) in
           hret (PList (List.map (fun d => PDict (stringify_id d)) docs))
       else if py_eq_str (operation req) "insert" then
           let* coll := lift (py_get (parameters req) "collection" (PStr "default")) in
           let* doc := lift (py_get (parameters req) "document" (PDict [])) in
           let* id := call (EvInsertOne coll doc) (mongo_insert_one w db coll doc) in
           hret (PDict [("inserted_id", PStr (py_str id))])
       else if py_eq_str (operation req) "update" then
           let* coll := lift (py_get (parameters req) "collection" (PStr "default")) in
           let* q := lift (py_get (parameters req) "query" (PDict [])) in
           let* upd := lift (py_get (parameters req) "update" (PDict [])) in
           let* counts := call (EvUpdateMany coll q upd)
                               (mongo_update_many w db coll q upd) in
           hret (PDict [("matched_count", PInt (fst counts));
                        ("modified_count", PInt (snd counts))])
       else if py_eq_str (operation req) "delete" then
           let* coll := lift (py_get (parameters req) "collection" (PStr "default")) in
           let* q := lift (py_get (parameters req) "query" (PDict [])) in
           let* n := call (EvDeleteMany coll q) (mongo_delete_many w db coll q) in
           hret (PDict [("deleted_count", PInt n)])
       else hraise (Exn ValueError
                      ("Unsupported MongoDB operation: " +:+ py_str (operation req)))).

(* --------------------------------------------------------------------- *)
(** *** Router *)
(* --------------------------------------------------------------------- *)

(** [_route_request]. *)
Definition route_request (srv : Server) (w : World) (req : DatabaseRequest) : H pyval :=
  if String.eqb (db_type req) "sqlite" then handle_sqlite srv w req
  else if String.eqb (db_type req) "postgresql" then handle_postgresql srv w req
  else if String.eqb (db_type req) "mysql" then handle_mysql srv w req
  else if String.eqb (db_type req) "mongodb" then handle_mongodb srv w req
  else hraise (Exn ValueError ("Unsupported database type: " +:+ db_type req)).

(* --------------------------------------------------------------------- *)
(** *** Cache adapter *)
(* --------------------------------------------------------------------- *)

(** A value held by Redis.  [JsonText v] is a text that parses as JSON and
    denotes [v]; [RawText s] is the text [s], which does not parse as JSON.
    The JSON syntax itself is not embedded. *)
Inductive cache_text : Type :=
| JsonText (v : pyval)
| RawText (s : string).

(** Truth value of the string [get] returned. *)
Definition text_truthy (t : cache_text) : bool :=
  match t with
  | JsonText _ => true
  | RawText s => negb (String.eqb s "")
  end.

Definition json_loads (t : cache_text) : result pyval :=
  match t with
  | JsonText v => Ok v
  | RawText _ => Raise (Exn JSONDecodeError "Expecting value: line 1 column 1 (char 0)")
  end.

(** What [json.loads] gives back for [json.dumps(v, default=str)]: an
    object that JSON cannot carry is replaced by its [str()]. *)
Fixpoint json_coerce (v : pyval) : pyval :=
  match v with
  | PList l => PList (List.map json_coerce l)
  | PDict kvs => PDict (List.map (fun kv => (fst kv, json_coerce (snd kv))) kvs)
  | PObj _ s _ => PStr s
  | _ => v
  end.

Definition json_dumps (v : pyval) : cache_text := JsonText (json_coerce v).

(** How the Redis client encodes a key. *)
Definition redis_key (k : pyval) : result string :=
  match k with
  | PStr s => Ok s
  | PInt z => Ok (pretty z)
  | _ => Raise (Exn RedisError
           ("Invalid input of type: '" +:+ type_name k
              +:+ "'. Convert to a bytes, string, int or float first."))
  end.

Definition redis_get (w : World) (st : gmap string cache_text) (k : pyval)
  : result (option cache_text) :=
  match redis_get_exn w k with
  | Some e => Raise e
  | None => let? key := redis_key k in Ok (st !! key)
  end.

Definition redis_setex (w : World) (st : gmap string cache_text)
    (k ttl : pyval) (t : cache_text) : result (gmap string cache_text) :=
  match redis_setex_exn w k ttl with
  | Some e => Raise e
  | None => let? key := redis_key k in Ok (<[key := t]> st)
  end.

(** [_check_cache]: [PNone] stands for Python's [None]. *)
Definition check_cache (srv : Server) (w : World) (st : gmap string cache_text)
    (key : pyval) : pyval :=
  if negb (redis_client srv) then PNone
  else
    let attempt :=
      let? cached_data := redis_get w st key in
      match cached_data with
      | Some t => if text_truthy t then json_loads t else Ok PNone
      | None => Ok PNone
      end in
    match attempt with
    | Ok v => v
    | Raise _ => PNone
    end.

(** [self.config['redis'].get('ttl', 3600)]. *)
Definition configured_ttl (srv : Server) : result pyval :=
  let? r := py_getitem (config srv) "redis" in
  py_get r "ttl" (PInt 3600).

(** [_store_in_cache]: the store after the call. *)
Definition store_in_cache (srv : Server) (w : World) (st : gmap string cache_text)
    (key data : pyval) : gmap string cache_text :=
  if negb (redis_client srv) then st
  else
    let attempt :=
      let? ttl := configured_ttl srv in
      redis_setex w st key ttl (json_dumps data) in
    match attempt with
    | Ok st' => st'
    | Raise _ => st
    end.

(* --------------------------------------------------------------------- *)
(** *** Envelopes *)
(* --------------------------------------------------------------------- *)

Definition success_envelope (ts : string) (data : pyval) (from_cache : bool) : pyval :=
  PDict [("status", PStr "success"); ("data", data);
         ("from_cache", PBool from_cache); ("timestamp", PStr ts)].

Definition error_envelope (ts : string) (error_message : string) : pyval :=
  PDict [("status", PStr "error"); ("error", PStr error_message);
         ("timestamp", PStr ts)].

(** [_format_response]: the timestamp is read from the file system while
    the envelope is built. *)
Definition format_response (w : World) (data : pyval) (from_cache : bool)
  : result pyval :=
  let? ts := src_stat w in
  Ok (success_envelope ts data from_cache).

(** [_format_error_response]. *)
Definition format_error_response (w : World) (error_message : string) : result pyval :=
  let? ts := src_stat w in
  Ok (error_envelope ts error_message).

(** [env[k]] when [env] is a mapping holding [k]. *)
Definition field (k : string) (env : pyval) : option pyval :=
  match env with
  | PDict kvs => dict_lookup k kvs
  | _ => None
  end.

(* --------------------------------------------------------------------- *)
(** *** Gateway *)
(* --------------------------------------------------------------------- *)

(** What one call leaves behind: the Redis store, the driver calls made,
    and what the caller gets (an envelope, or an exception). *)
Record Outcome : Type := {
  out_store : gmap string cache_text;
  out_trace : list Event;
  out_result : result pyval
}.

(** The value of [cached_result] when the test of the cache is reached;
    [PNone] when the lookup is skipped. *)
Definition lookup_step (srv : Server) (w : World) (st : gmap string cache_text)
    (request : DatabaseRequest) : pyval :=
  if py_truthy (cache_key request) && redis_client srv
  then check_cache srv w st (cache_key request)
  else PNone.

(** The body of the [try] block of [receive_client_request]. *)
Definition pipeline (srv : Server) (w : World) (st : gmap string cache_text)
    (request_data : pyval) : Outcome :=
  match parse_request request_data with
  | Raise e => {| out_store := st; out_trace := []; out_result := Raise e |}
  | Ok request =>
      let cached_result := lookup_step srv w st request in
      if py_truthy cached_result then
        {| out_store := st; out_trace := [];
           out_result := format_response w cached_result true |}
      else
        match route_request srv w request with
        | (tr, Raise e) => {| out_store := st; out_trace := tr; out_result := Raise e |}
        | (tr, Ok result) =>
            let st' :=
              if py_truthy (cache_key request) && redis_client srv && py_truthy result
              then store_in_cache srv w st (cache_key request) result
              else st in
            {| out_store := st'; out_trace := tr;
               out_result := format_response w result false |}
        end
  end.

(** [receive_client_request]: the [except Exception] clause turns whatever
    the body raised into an error envelope; formatting that envelope happens
    inside the handler clause, outside any [try]. *)
Definition receive_client_request (srv : Server) (w : World)
    (st : gmap string cache_text) (request_data : pyval) : Outcome :=
  let o := pipeline srv w st request_data in
  match out_result o with
  | Ok env => o
  | Raise e =>
      {| out_store := out_store o; out_trace := out_trace o;
         out_result := format_error_response w (exn_msg e) |}
  end.

(** [n] calls with the same request, one after the other: the envelopes
    in order, and the store left at the end. *)
Fixpoint receive_n (srv : Server) (w : World) (request_data : pyval) (n : nat)
    (st : gmap string cache_text) : list (result pyval) * gmap string cache_text :=
  match n with
  | O => ([], st)
  | S k =>
      let o := receive_client_request srv w st request_data in
      let '(rs, st') := receive_n srv w request_data k (out_store o) in
      (out_result o :: rs, st')
  end.

(* ===================================================================== *)
(** ** Vocabulary of the properties *)
(* ===================================================================== *)

(** The four names the router knows. *)
Definition is_supported (name : string) : bool :=
  String.eqb name "sqlite" || String.eqb name "postgresql"
  || String.eqb name "mysql" || String.eqb name "mongodb".

Definition is_relational (k : Backend) : bool :=
  match k with
  | Mongodb => false
  | _ => true
  end.

Definition backend_name (k : Backend) : string :=
  match k with
  | Sqlite => "sqlite"
  | Postgresql => "postgresql"
  | Mysql => "mysql"
  | Mongodb => "mongodb"
  end.

Definition handler (k : Backend) : Server -> World -> DatabaseRequest -> H pyval :=
  match k with
  | Sqlite => handle_sqlite
  | Postgresql => handle_postgresql
  | Mysql => handle_mysql
  | Mongodb => handle_mongodb
  end.

(** The client library of a backend was importable. [sqlite3] always is. *)
Definition library_present (w : World) (k : Backend) : bool :=
  match k with
  | Sqlite => true
  | Postgresql => POSTGRESQL_AVAILABLE w
  | Mysql => MYSQL_AVAILABLE w
  | Mongodb => MONGODB_AVAILABLE w
  end.

(** The configuration holds [enabled] for the backend, with a false value. *)
Definition disabled (srv : Server) (k : Backend) : bool :=
  match py_getitem (config srv) (backend_name k) with
  | Ok sec =>
      match py_getitem sec "enabled" with
      | Ok en => negb (py_truthy en)
      | Raise _ => false
      end
  | Raise _ => false
  end.

Definition unavailable (srv : Server) (w : World) (k : Backend) : bool :=
  negb (library_present w k) || disabled srv k.

Definition unavailable_message (k : Backend) : string :=
  match k with
  | Sqlite => "SQLite not enabled"
  | Postgresql => "PostgreSQL not available or not enabled"
  | Mysql => "MySQL not available or not enabled"
  | Mongodb => "MongoDB not available or not enabled"
  end.

(** Values that JSON carries as they are. *)
Fixpoint json_native (v : pyval) : bool :=
  match v with
  | PList l => forallb json_native l
  | PDict kvs => forallb (fun kv => json_native (snd kv)) kvs
  | PObj _ _ _ => false
  | _ => true
  end.

(** The section of the configuration for [k] enables it and holds the
    connection parameters in [args], in the order the driver takes them. *)
Definition configured (srv : Server) (k : Backend) (keys : list string)
    (args : list pyval) : Prop :=
  exists sec en,
    py_getitem (config srv) (backend_name k) = Ok sec /\
    py_getitem sec "enabled" = Ok en /\ py_truthy en = true /\
    Forall2 (fun key v => py_getitem sec key = Ok v) keys args.

(** The driver of a relational backend goes through the whole session
    without raising. *)
Definition driver_ok (k : Backend) (srv : Server) (w : World) (req : DatabaseRequest)
  : Prop :=
  match k with
  | Sqlite =>
      exists p cur rows,
        configured srv Sqlite ["db_path"] [p] /\
        os_makedirs w p = Ok tt /\ sqlite_connect w p = Ok tt /\
        sqlite_execute w (query req) (sqlite_params req) = Ok cur /\
        fetchall cur = Ok rows /\ sqlite_commit w = Ok tt
  | Postgresql =>
      exists args cur rows,
        POSTGRESQL_AVAILABLE w = true /\ RealDictCursor_present w = true /\
        configured srv Postgresql ["host"; "port"; "database"; "user"; "password"] args /\
        pg_connect w args = Ok tt /\
        pg_execute w (query req) (parameters req) = Ok cur /\
        fetchall cur = Ok rows /\ pg_commit w = Ok tt
  | Mysql =>
      exists args cur cols rows,
        MYSQL_AVAILABLE w = true /\
        configured srv Mysql ["host"; "port"; "user"; "password"; "database"] args /\
        mysql_connect w args = Ok tt /\
        mysql_execute w (query req) (parameters req) = Ok cur /\
        description cur = Some cols /\
        fetchall cur = Ok rows /\ mysql_commit w = Ok tt
  | Mongodb => False
  end.

(** [res] is the sequence of the fetched rows, each a mapping from column
    name to value. *)
Definition returns_fetched_rows (k : Backend) (w : World) (req : DatabaseRequest)
    (res : pyval) : Prop :=
  match k with
  | Sqlite =>
      exists cur rows,
        sqlite_execute w (query req) (sqlite_params req) = Ok cur /\
        fetchall cur = Ok rows /\ res = PList (List.map PDict rows)
  | Postgresql =>
      exists cur rows,
        pg_execute w (query req) (parameters req) = Ok cur /\
        fetchall cur = Ok rows /\ res = PList (List.map PDict rows)
  | Mysql =>
      exists cur cols rows,
        mysql_execute w (query req) (parameters req) = Ok cur /\
        description cur = Some cols /\ fetchall cur = Ok rows /\
        res = PList (List.map (fun row => PDict (dict_of_pairs (combine cols row))) rows)
  | Mongodb => False
  end.

(** [res] is the mutation summary of the executed statement. *)
Definition returns_summary (k : Backend) (w : World) (req : DatabaseRequest)
    (res : pyval) : Prop :=
  match k with
  | Sqlite =>
      exists cur,
        sqlite_execute w (query req) (sqlite_params req) = Ok cur /\
        res = PDict [("affected_rows", PInt (rowcount cur)); ("lastrowid", lastrowid cur)]
  | Postgresql =>
      exists cur,
        pg_execute w (query req) (parameters req) = Ok cur /\
        res = PDict [("affected_rows", PInt (rowcount cur))]
  | Mysql =>
      exists cur,
        mysql_execute w (query req) (parameters req) = Ok cur /\
        res = PDict [("affected_rows", PInt (rowcount cur))]
  | Mongodb => False
  end.

(** The document store is installed, enabled and configured with database
    [db], and the client object can be built. *)
Definition mongo_ready (srv : Server) (w : World) (db : pyval) : Prop :=
  MONGODB_AVAILABLE w = true /\
  exists host port,
    configured srv Mongodb ["host"; "port"; "database"] [host; port; db] /\
    mongo_client w host port = Ok tt.

(** The read test on a string operation and a string query. *)
Definition select_marked (op q : string) : bool :=
  String.eqb (str_lower op) "select" || startswith (str_lower q) "select".

(* ===================================================================== *)
(** ** Concrete worlds, servers and requests *)
(* ===================================================================== *)

Module Demo.

Definition table_rows : list Row := [[("name", PStr "users")]; [("name", PStr "orders")]].

Definition documents : list Row :=
  [[("_id", PObj "ObjectId" "65a1f0" "ObjectId('65a1f0')"); ("name", PStr "ada")]].

Definition priced_rows : list Row :=
  [[("price", PObj "Decimal" "12.50" "Decimal('12.50')")]].

Definition refused : exn := Exn RedisError "Error 111 connecting to localhost:6379. Connection refused.".

Definition missing_file : exn :=
  Exn OSError "[Errno 2] No such file or directory: 'mcp_database_server.py'".

(** A world in which every driver answers: [stat] is the outcome of the
    timestamp read, [pg] whether psycopg2 was importable, [rows] what a
    relational query fetches, [get_exn] and [set_exn] the faults of the
    two Redis commands. *)
Definition world (stat : result string) (pg : bool) (rows : list Row)
    (get_exn set_exn : option exn) : World :=
  {| REDIS_AVAILABLE := true;
     POSTGRESQL_AVAILABLE := pg;
     RealDictCursor_present := pg;
     MYSQL_AVAILABLE := true;
     MONGODB_AVAILABLE := true;
     src_stat := stat;
     os_makedirs := fun _ => Ok tt;
     sqlite_connect := fun _ => Ok tt;
     sqlite_execute := fun _ _ =>
       Ok {| description := Some ["name"]; fetchall := Ok rows;
             rowcount := 1; lastrowid := PInt 7 |};
     sqlite_commit := Ok tt;
     pg_connect := fun _ => Ok tt;
     pg_execute := fun _ _ =>
       Ok {| description := Some ["name"]; fetchall := Ok rows;
             rowcount := 1; lastrowid := PNone |};
     pg_commit := Ok tt;
     mysql_connect := fun _ => Ok tt;
     mysql_execute := fun _ _ =>
       Ok {| description := Some ["name"];
             fetchall := Ok (List.map (List.map snd) rows);
             rowcount := 1; lastrowid := PInt 7 |};
     mysql_commit := Ok tt;
     mongo_client := fun _ _ => Ok tt;
     mongo_find := fun _ _ _ => Ok documents;
     mongo_insert_one := fun _ _ _ => Ok (PObj "ObjectId" "65a1f0" "ObjectId('65a1f0')");
     mongo_update_many := fun _ _ _ _ => Ok (1, 1);
     mongo_delete_many := fun _ _ _ => Ok 1;
     redis_ping := fun _ _ => None;
     redis_get_exn := fun _ => get_exn;
     redis_setex_exn := fun _ _ => set_exn |}.

Definition calm : World := world (Ok "1718000000.5") true table_rows None None.
Definition touched : World := world (Ok "1718000999.25") true table_rows None None.
Definition empty_table : World := world (Ok "1718000000.5") true [] None None.
Definition priced : World := world (Ok "1718000000.5") true priced_rows None None.
Definition cache_down : World :=
  world (Ok "1718000000.5") true table_rows (Some refused) (Some refused).
Definition no_psycopg : World := world (Ok "1718000000.5") false table_rows None None.
Definition file_gone : World := world (Raise missing_file) true table_rows None None.

(** The server the constructor builds from the default configuration:
    with a reachable Redis it holds a cache client. *)
Definition server (w : World) : Server :=
  {| config := load_default_config w; redis_client := true |}.

(** The request of [main]. *)
Definition sqlite_tables : pyval :=
  PDict [("db_type", PStr "sqlite"); ("operation", PStr "select");
         ("query", PStr "SELECT name FROM sqlite_master WHERE type='table'");
         ("cache_key", PStr "sqlite_tables")].

Definition oracle_request : pyval :=
  PDict [("db_type", PStr "Oracle"); ("operation", PStr "select");
         ("query", PStr "SELECT 1 FROM dual"); ("cache_key", PStr "sqlite_tables")].

Definition no_db_type : pyval := PDict [("operation", PStr "select")].

Definition pg_request : pyval :=
  PDict [("db_type", PStr "PostgreSQL"); ("operation", PStr "select");
         ("query", PStr "SELECT name FROM t"); ("cache_key", PStr "sqlite_tables")].

Definition null_parameters : pyval :=
  PDict [("db_type", PStr "mongodb"); ("operation", PStr "find");
         ("parameters", PNone)].

Definition parsed (k : string) (op : string) (q params ck : pyval)
  : DatabaseRequest :=
  {| db_type := k; operation := PStr op; query := q; parameters := params;
     cache_key := ck |}.

(** A store that already holds a result under the key of [main]. *)
Definition warm : gmap string cache_text :=
  <["sqlite_tables" := JsonText (PList [PDict [("name", PStr "users")]])]> ∅.

(** A store that holds an empty result under that key. *)
Definition holds_empty : gmap string cache_text :=
  <["sqlite_tables" := JsonText (PList [])]> ∅.

End Demo.

(** Further inputs, for the properties beyond the claims. *)
Module Cases.

(** A store whose entry under the key of [main] is no JSON. *)
Definition corrupt : gmap string cache_text :=
  <["sqlite_tables" := RawText "<html>502 Bad Gateway</html>"]> ∅.

(** A write with a cache key. *)
Definition insert_request : pyval :=
  PDict [("db_type", PStr "sqlite"); ("operation", PStr "insert");
         ("query", PStr "INSERT INTO t(name) VALUES (?)");
         ("parameters", PList [PStr "ada"]); ("cache_key", PStr "ins")].

Definition insert_parsed : DatabaseRequest :=
  {| db_type := "sqlite"; operation := PStr "insert";
     query := PStr "INSERT INTO t(name) VALUES (?)";
     parameters := PList [PStr "ada"]; cache_key := PStr "ins" |}.

(** A request to SQLite that carries no query. *)
Definition no_query : DatabaseRequest :=
  {| db_type := "sqlite"; operation := PStr "insert"; query := PNone;
     parameters := PDict []; cache_key := PNone |}.

(** A world whose PostgreSQL server refuses the statement. *)
Definition failing_statement : World :=
  {| REDIS_AVAILABLE := true;
     POSTGRESQL_AVAILABLE := true;
     RealDictCursor_present := true;
     MYSQL_AVAILABLE := true;
     MONGODB_AVAILABLE := true;
     src_stat := Ok "1718000000.5";
     os_makedirs := fun _ => Ok tt;
     sqlite_connect := fun _ => Ok tt;
     sqlite_execute := fun _ _ => Raise (Exn DriverError "near FROM: syntax error");
     sqlite_commit := Ok tt;
     pg_connect := fun _ => Ok tt;
     pg_execute := fun _ _ => Raise (Exn DriverError "relation t does not exist");
     pg_commit := Ok tt;
     mysql_connect := fun _ => Raise (Exn DriverError "Can't connect to MySQL server");
     mysql_execute := fun _ _ => Raise (Exn DriverError "Table t doesn't exist");
     mysql_commit := Ok tt;
     mongo_client := fun _ _ => Ok tt;
     mongo_find := fun _ _ _ => Raise (Exn DriverError "ServerSelectionTimeoutError");
     mongo_insert_one := fun _ _ _ => Raise (Exn DriverError "ServerSelectionTimeoutError");
     mongo_update_many := fun _ _ _ _ => Raise (Exn DriverError "ServerSelectionTimeoutError");
     mongo_delete_many := fun _ _ _ => Raise (Exn DriverError "ServerSelectionTimeoutError");
     redis_ping := fun _ _ => Some Demo.refused;
     redis_get_exn := fun _ => None;
     redis_setex_exn := fun _ _ => None |}.

End Cases.

(* ===================================================================== *)
(** ** Vocabulary of the further properties *)
(* ===================================================================== *)

(** The driver of backend [k] executed the statement of [req] without
    raising. *)
Definition statement_ran (k : Backend) (w : World) (req : DatabaseRequest) : Prop :=
  match k with
  | Sqlite => exists cur, sqlite_execute w (query req) (sqlite_params req) = Ok cur
  | Postgresql => exists cur, pg_execute w (query req) (parameters req) = Ok cur
  | Mysql => exists cur, mysql_execute w (query req) (parameters req) = Ok cur
  | Mongodb => False
  end.

(** Whether Redis answers the [ping] of the constructor. *)
Definition ping_answers (w : World) (host port : pyval) : bool :=
  match redis_ping w host port with
  | None => true
  | Some _ => false
  end.

(** The world [w] with other faults of the Redis [setex] command. *)
Definition with_setex_fault (w : World) (f : pyval -> pyval -> option exn) : World :=
  {| REDIS_AVAILABLE := REDIS_AVAILABLE w;
     POSTGRESQL_AVAILABLE := POSTGRESQL_AVAILABLE w;
     RealDictCursor_present := RealDictCursor_present w;
     MYSQL_AVAILABLE := MYSQL_AVAILABLE w;
     MONGODB_AVAILABLE := MONGODB_AVAILABLE w;
     src_stat := src_stat w;
     os_makedirs := os_makedirs w;
     sqlite_connect := sqlite_connect w;
     sqlite_execute := sqlite_execute w;
     sqlite_commit := sqlite_commit w;
     pg_connect := pg_connect w;
     pg_execute := pg_execute w;
     pg_commit := pg_commit w;
     mysql_connect := mysql_connect w;
     mysql_execute := mysql_execute w;
     mysql_commit := mysql_commit w;
     mongo_client := mongo_client w;
     mongo_find := mongo_find w;
     mongo_insert_one := mongo_insert_one w;
     mongo_update_many := mongo_update_many w;
     mongo_delete_many := mongo_delete_many w;
     redis_ping := redis_ping w;
     redis_get_exn := redis_get_exn w;
     redis_setex_exn := f |}.

(* ===================================================================== *)
(** ** Proof steps shared by the handler lemmas *)
(* ===================================================================== *)

(** Split on the outcome of each step of a handler, in order; [finally]
    stays folded. *)
Ltac split_steps :=
  repeat (match goal with
          | |- context [match ?x with _ => _ end] =>
              match type of x with
              | result _ => destruct x eqn:?
              | bool => destruct x eqn:?
              end
          end; cbn -[finally]).

(** The same, through the body of [finally] as well. *)
Ltac split_all_steps :=
  repeat (match goal with
          | |- context [match ?x with _ => _ end] =>
              match type of x with
              | result _ => destruct x eqn:?
              | bool => destruct x eqn:?
              | option _ => destruct x eqn:?
              end
          end; cbn).

(** A trace that opens and closes: find what lies in between. *)
Ltac ends_with_close :=
  solve [ eauto 7
        | right; right;
          first [ exists []; reflexivity
                | eexists [_]; reflexivity
                | eexists [_; _]; reflexivity
                | eexists [_; _; _]; reflexivity ] ].

(** Open a [configured] hypothesis down to one equation per key. *)
Ltac invert_configured :=
  repeat match goal with
         | H : configured _ _ _ _ |- _ =>
             destruct H as (?sec & ?en & ?Hsec & ?Hen & ?Hon & ?Hargs)
         | H : Forall2 _ (_ :: _) _ |- _ => inversion H; subst; clear H
         | H : Forall2 _ [] _ |- _ => inversion H; subst; clear H
         end.

(** Replay the driver answers the hypotheses give. *)
Ltac run_handler :=
  repeat match goal with
         | H : ?x = Ok _ |- context [?x] => rewrite H; cbn
         | H : ?x = Some _ |- context [?x] => rewrite H; cbn
         | H : ?x = true |- context [?x] => rewrite H; cbn
         end.

(* ===================================================================== *)
(** ** The gateway, case by case *)
(* ===================================================================== *)

Section Gateway.
Variables (srv : Server) (w : World) (st : gmap string cache_text).
Variable raw : pyval.

Lemma format_response_stat ts data fc :
  src_stat w = Ok ts -> format_response w data fc = Ok (success_envelope ts data fc).
Proof. intros Hs. unfold format_response. now rewrite Hs. Qed.

Lemma format_error_response_stat ts msg :
  src_stat w = Ok ts -> format_error_response w msg = Ok (error_envelope ts msg).
Proof. intros Hs. unfold format_error_response. now rewrite Hs. Qed.

(** The request does not parse: the error envelope carries [str(e)]. *)
Lemma receive_parse_error ts e :
  src_stat w = Ok ts ->
  parse_request raw = Raise e ->
  receive_client_request srv w st raw =
    {| out_store := st; out_trace := [];
       out_result := Ok (error_envelope ts (exn_msg e)) |}.
Proof.
  intros Hs Hp. unfold receive_client_request, pipeline. rewrite Hp. cbn.
  now rewrite (format_error_response_stat ts).
Qed.

(** A truthy cached value ends the call before the router is reached. *)
Lemma receive_cache_hit ts req :
  src_stat w = Ok ts ->
  parse_request raw = Ok req ->
  py_truthy (lookup_step srv w st req) = true ->
  receive_client_request srv w st raw =
    {| out_store := st; out_trace := [];
       out_result := Ok (success_envelope ts (lookup_step srv w st req) true) |}.
Proof.
  intros Hs Hp Hhit. unfold receive_client_request, pipeline. rewrite Hp. cbn.
  rewrite Hhit. cbn. rewrite (format_response_stat ts) by assumption. reflexivity.
Qed.

(** No cached value and a handler that raises. *)
Lemma receive_route_error ts req tr e :
  src_stat w = Ok ts ->
  parse_request raw = Ok req ->
  py_truthy (lookup_step srv w st req) = false ->
  route_request srv w req = (tr, Raise e) ->
  receive_client_request srv w st raw =
    {| out_store := st; out_trace := tr;
       out_result := Ok (error_envelope ts (exn_msg e)) |}.
Proof.
  intros Hs Hp Hmiss Hr. unfold receive_client_request, pipeline. rewrite Hp. cbn.
  rewrite Hmiss, Hr. cbn. now rewrite (format_error_response_stat ts).
Qed.

(** No cached value and a handler that returns. *)
Lemma receive_route_ok ts req tr r :
  src_stat w = Ok ts ->
  parse_request raw = Ok req ->
  py_truthy (lookup_step srv w st req) = false ->
  route_request srv w req = (tr, Ok r) ->
  receive_client_request srv w st raw =
    {| out_store :=
         if py_truthy (cache_key req) && redis_client srv && py_truthy r
         then store_in_cache srv w st (cache_key req) r else st;
       out_trace := tr;
       out_result := Ok (success_envelope ts r false) |}.
Proof.
  intros Hs Hp Hmiss Hr. unfold receive_client_request, pipeline. rewrite Hp. cbn.
  rewrite Hmiss, Hr. cbn. rewrite (format_response_stat ts) by assumption. reflexivity.
Qed.

(** When the modification time cannot be read, building either envelope
    raises, and the second attempt is made outside the [try]: the caller
    gets the exception. *)
Lemma receive_propagates_stat_failure e :
  src_stat w = Raise e ->
  out_result (receive_client_request srv w st raw) = Raise e.
Proof.
  intros Hs. unfold receive_client_request, pipeline.
  assert (Hf : forall d b, format_response w d b = Raise e)
    by (intros; unfold format_response; now rewrite Hs).
  assert (He : forall m, format_error_response w m = Raise e)
    by (intros; unfold format_error_response; now rewrite Hs).
  destruct (parse_request raw) as [req|e0]; cbn; [|apply He].
  destruct (py_truthy (lookup_step srv w st req)); cbn.
  - rewrite Hf. cbn. apply He.
  - destruct (route_request srv w req) as [tr [r|e1]]; cbn.
    + rewrite Hf. cbn. apply He.
    + apply He.
Qed.
End Gateway.

(** The server of the examples is the one the constructor builds. *)
Example init_builds_demo_server :
  init Demo.calm PNone = Ok (Demo.server Demo.calm).
Proof. reflexivity. Qed.

(** The source file is gone (removed after import, or the module runs from
    an archive): the request of [main] ends in an exception for the
    caller, not in an envelope. *)
Example stat_failure_reaches_caller :
  out_result (receive_client_request (Demo.server Demo.file_gone) Demo.file_gone ∅
                Demo.sqlite_tables) = Raise Demo.missing_file.
Proof. now apply receive_propagates_stat_failure. Qed.

Lemma field_status_success ts d b :
  field "status" (success_envelope ts d b) = Some (PStr "success").
Proof. reflexivity. Qed.

Lemma field_status_error ts m :
  field "status" (error_envelope ts m) = Some (PStr "error").
Proof. reflexivity. Qed.

(* ===================================================================== *)
(** ** C1: the gateway always answers with an envelope *)
(* ===================================================================== *)

(** C1, as amended.  Whenever the modification time behind the timestamp can
    be read, [receive] returns an envelope whose status is "success" or
    "error".  An exception raised while parsing, routing or running a
    handler is turned into an error envelope carrying [str(e)]; an exception
    of the cache never is: as soon as the request parses and its handler
    returns, the status is "success", whatever the cache did. *)
Theorem C1_gateway_always_answers :
  forall (srv : Server) (w : World) (st : gmap string cache_text) (raw : pyval)
         (ts : string),
    src_stat w = Ok ts ->
    exists env,
      out_result (receive_client_request srv w st raw) = Ok env /\
      (field "status" env = Some (PStr "success") \/
       field "status" env = Some (PStr "error")) /\
      (forall e, parse_request raw = Raise e ->
                 env = error_envelope ts (exn_msg e)) /\
      (forall req tr e,
          parse_request raw = Ok req ->
          py_truthy (lookup_step srv w st req) = false ->
          route_request srv w req = (tr, Raise e) ->
          env = error_envelope ts (exn_msg e)) /\
      (forall req tr r,
          parse_request raw = Ok req ->
          route_request srv w req = (tr, Ok r) ->
          field "status" env = Some (PStr "success")).
Proof.
  intros srv w st raw ts Hs.
  destruct (parse_request raw) as [req|e] eqn:Hp.
  - destruct (py_truthy (lookup_step srv w st req)) eqn:Hhit.
    + eexists. rewrite (receive_cache_hit srv w st raw ts req Hs Hp Hhit). cbn.
      repeat split; auto; intros; congruence.
    + destruct (route_request srv w req) as [tr [r|e]] eqn:Hr.
      * eexists. rewrite (receive_route_ok srv w st raw ts req tr r Hs Hp Hhit Hr). cbn.
        repeat split; auto; intros; congruence.
      * eexists. rewrite (receive_route_error srv w st raw ts req tr e Hs Hp Hhit Hr). cbn.
        repeat split; auto; intros; congruence.
  - eexists. rewrite (receive_parse_error srv w st raw ts e Hs Hp). cbn.
    repeat split; auto; intros; congruence.
Qed.

Lemma C1_gateway_always_answers_witness :
  src_stat Demo.cache_down = Ok "1718000000.5" /\
  exists env,
    out_result (receive_client_request (Demo.server Demo.cache_down) Demo.cache_down
                  ∅ Demo.oracle_request) = Ok env /\
    field "status" env = Some (PStr "error").
Proof.
  split; [reflexivity|].
  destruct (C1_gateway_always_answers (Demo.server Demo.cache_down) Demo.cache_down
              ∅ Demo.oracle_request "1718000000.5" eq_refl)
    as (env & Hres & _ & _ & Herr & _).
  exists env. split; [exact Hres|].
  rewrite (Herr (Demo.parsed "oracle" "select" (PStr "SELECT 1 FROM dual") (PDict [])
                              (PStr "sqlite_tables"))
                [] (Exn ValueError "Unsupported database type: oracle")
                eq_refl eq_refl eq_refl).
  reflexivity.
Defined.

(** C1, as stated, fails: the cache lookup raises, and the failure is not
    turned into an error envelope; the caller gets a success envelope. *)
Lemma C1_counterexample :
  redis_get Demo.cache_down ∅ (PStr "sqlite_tables") = Raise Demo.refused /\
  exists env,
    out_result (receive_client_request (Demo.server Demo.cache_down) Demo.cache_down
                  ∅ Demo.sqlite_tables) = Ok env /\
    field "status" env = Some (PStr "success") /\
    field "status" env <> Some (PStr "error").
Proof.
  split; [reflexivity|].
  eexists. split; [vm_compute; reflexivity|].
  split; [reflexivity|discriminate].
Qed.

(* ===================================================================== *)
(** ** The cache adapter *)
(* ===================================================================== *)

Section CacheAdapter.
Variables (srv : Server) (w : World) (st : gmap string cache_text).

Lemma check_cache_get_raises key e :
  redis_get_exn w key = Some e -> check_cache srv w st key = PNone.
Proof.
  intros Hg. unfold check_cache, redis_get. rewrite Hg.
  now destruct (redis_client srv).
Qed.

Lemma store_in_cache_setex_raises key data :
  (forall ttl, redis_setex_exn w key ttl <> None) ->
  store_in_cache srv w st key data = st.
Proof.
  intros Hs. unfold store_in_cache, redis_setex.
  destruct (redis_client srv); cbn; [|reflexivity].
  destruct (configured_ttl srv) as [ttl|e]; cbn; [|reflexivity].
  specialize (Hs ttl). now destruct (redis_setex_exn w key ttl).
Qed.

(** With a client and a connection that answers, the lookup is decided by
    the text the store holds under the key. *)
Lemma check_cache_reads key k :
  redis_client srv = true ->
  redis_get_exn w key = None ->
  redis_key key = Ok k ->
  check_cache srv w st key =
    match st !! k with
    | Some t =>
        if text_truthy t
        then match json_loads t with Ok v => v | Raise _ => PNone end
        else PNone
    | None => PNone
    end.
Proof.
  intros Hc Hg Hk. unfold check_cache, redis_get. rewrite Hc, Hg, Hk. cbn.
  destruct (st !! k) as [t|]; [|reflexivity].
  now destruct (text_truthy t).
Qed.

(** A cached text that denotes [v] is read back as [v]: when [v] is falsy,
    the gateway takes it for a miss. *)
Lemma check_cache_json_entry key k v :
  redis_client srv = true ->
  redis_get_exn w key = None ->
  redis_key key = Ok k ->
  st !! k = Some (JsonText v) ->
  check_cache srv w st key = v.
Proof.
  intros Hc Hg Hk He. rewrite (check_cache_reads key k Hc Hg Hk), He. reflexivity.
Qed.

Lemma store_in_cache_writes key k ttl data :
  redis_client srv = true ->
  configured_ttl srv = Ok ttl ->
  redis_setex_exn w key ttl = None ->
  redis_key key = Ok k ->
  store_in_cache srv w st key data = <[k := json_dumps data]> st.
Proof.
  intros Hc Ht Hs Hk. unfold store_in_cache, redis_setex.
  rewrite Hc, Ht. cbn. now rewrite Hs, Hk.
Qed.
End CacheAdapter.

(** Serialising leaves a value made of JSON's own types as it is. *)
Lemma json_coerce_native (v : pyval) : json_native v = true -> json_coerce v = v.
Proof.
  induction v as [| b | z | s | l IH | kvs IH | c s r] using pyval_nested_ind;
    cbn; intros Hn; try reflexivity; try discriminate.
  - f_equal. induction IH as [|x l' Hx _ IHl]; cbn in *; [reflexivity|].
    apply andb_prop in Hn as [Hn1 Hn2]. now rewrite Hx, IHl.
  - f_equal. induction IH as [|[k x] l' Hx _ IHl]; cbn in *; [reflexivity|].
    apply andb_prop in Hn as [Hn1 Hn2]. now rewrite Hx, IHl.
Qed.

(** What the second of two calls returns when the first one populated a
    reachable cache: the first result as JSON carries it. *)
Lemma second_call_returns_coerced :
  forall (srv : Server) (w1 w2 : World) (st : gmap string cache_text)
         (raw : pyval) (req : DatabaseRequest) (tr : list Event) (r : pyval)
         (ts1 ts2 k : string) (ttl : pyval),
    redis_client srv = true ->
    parse_request raw = Ok req ->
    py_truthy (cache_key req) = true ->
    redis_key (cache_key req) = Ok k ->
    configured_ttl srv = Ok ttl ->
    redis_get_exn w1 (cache_key req) = None ->
    redis_setex_exn w1 (cache_key req) ttl = None ->
    redis_get_exn w2 (cache_key req) = None ->
    st !! k = None ->
    route_request srv w1 req = (tr, Ok r) ->
    py_truthy r = true ->
    py_truthy (json_coerce r) = true ->
    src_stat w1 = Ok ts1 ->
    src_stat w2 = Ok ts2 ->
    receive_client_request srv w1 st raw =
      {| out_store := <[k := json_dumps r]> st; out_trace := tr;
         out_result := Ok (success_envelope ts1 r false) |} /\
    receive_client_request srv w2 (<[k := json_dumps r]> st) raw =
      {| out_store := <[k := json_dumps r]> st; out_trace := [];
         out_result := Ok (success_envelope ts2 (json_coerce r) true) |}.
Proof.
  intros srv w1 w2 st raw req tr r ts1 ts2 k ttl
         Hc Hp Hck Hk Httl Hg1 Hs1 Hg2 Hfresh Hr Hr1 Hr2 Ht1 Ht2.
  assert (Hmiss : lookup_step srv w1 st req = PNone).
  { unfold lookup_step. rewrite Hck, Hc. cbn.
    rewrite (check_cache_reads srv w1 st _ k Hc Hg1 Hk), Hfresh. reflexivity. }
  assert (Hhit : lookup_step srv w2 (<[k := json_dumps r]> st) req = json_coerce r).
  { unfold lookup_step. rewrite Hck, Hc. cbn.
    apply (check_cache_json_entry srv w2 _ _ k); auto.
    apply lookup_insert_eq. }
  split.
  - rewrite (receive_route_ok srv w1 st raw ts1 req tr r Ht1 Hp); auto.
    + rewrite Hck, Hc, Hr1. cbn.
      now rewrite (store_in_cache_writes srv w1 st _ k ttl r Hc Httl Hs1 Hk).
    + now rewrite Hmiss.
  - rewrite (receive_cache_hit srv w2 _ raw ts2 req Ht2 Hp).
    + now rewrite Hhit.
    + now rewrite Hhit.
Qed.

(* ===================================================================== *)
(** ** C2: the same read, twice *)
(* ===================================================================== *)

(** C2, as amended.  A request with a cache key is issued twice to a server
    with a cache client; Redis answers both calls and accepts the write, and
    holds nothing under the key beforehand.  If the handler's result is
    truthy and made of JSON's own types, the first envelope has
    [from_cache] false, the second has [from_cache] true, and both carry the
    same data.  The second call does not consult the backend at all. *)
Theorem C2_second_call_served_from_cache :
  forall (srv : Server) (w1 w2 : World) (st : gmap string cache_text)
         (raw : pyval) (req : DatabaseRequest) (tr : list Event) (r : pyval)
         (ts1 ts2 k : string) (ttl : pyval),
    redis_client srv = true ->
    parse_request raw = Ok req ->
    py_truthy (cache_key req) = true ->
    redis_key (cache_key req) = Ok k ->
    configured_ttl srv = Ok ttl ->
    redis_get_exn w1 (cache_key req) = None ->
    redis_setex_exn w1 (cache_key req) ttl = None ->
    redis_get_exn w2 (cache_key req) = None ->
    st !! k = None ->
    route_request srv w1 req = (tr, Ok r) ->
    py_truthy r = true ->
    json_native r = true ->
    src_stat w1 = Ok ts1 ->
    src_stat w2 = Ok ts2 ->
    let o1 := receive_client_request srv w1 st raw in
    let o2 := receive_client_request srv w2 (out_store o1) raw in
    out_result o1 = Ok (success_envelope ts1 r false) /\
    out_result o2 = Ok (success_envelope ts2 r true).
Proof.
  intros srv w1 w2 st raw req tr r ts1 ts2 k ttl
         Hc Hp Hck Hk Httl Hg1 Hs1 Hg2 Hfresh Hr Hr1 Hnat Ht1 Ht2 o1 o2.
  assert (Hco : json_coerce r = r) by now apply json_coerce_native.
  destruct (second_call_returns_coerced srv w1 w2 st raw req tr r ts1 ts2 k ttl)
    as [H1 H2]; auto.
  { now rewrite Hco. }
  subst o2 o1. rewrite H1. cbn. rewrite H2. cbn. now rewrite Hco.
Qed.

Lemma C2_second_call_served_from_cache_witness :
  let o1 := receive_client_request (Demo.server Demo.calm) Demo.calm ∅ Demo.sqlite_tables in
  let o2 := receive_client_request (Demo.server Demo.calm) Demo.touched (out_store o1)
              Demo.sqlite_tables in
  out_result o1 = Ok (success_envelope "1718000000.5" (PList (List.map PDict Demo.table_rows)) false) /\
  out_result o2 = Ok (success_envelope "1718000999.25" (PList (List.map PDict Demo.table_rows)) true).
Proof.
  apply (C2_second_call_served_from_cache
           (Demo.server Demo.calm) Demo.calm Demo.touched ∅ Demo.sqlite_tables
           (Demo.parsed "sqlite" "select"
              (PStr "SELECT name FROM sqlite_master WHERE type='table'")
              (PDict []) (PStr "sqlite_tables"))
           [EvMakedirs (PStr "./data/app.db"); EvConnect Sqlite;
            EvExecute Sqlite (PStr "SELECT name FROM sqlite_master WHERE type='table'")
                      (PList []);
            EvFetchAll Sqlite]
           (PList (List.map PDict Demo.table_rows))
           "1718000000.5" "1718000999.25" "sqlite_tables" (PInt 3600));
    reflexivity.
Defined.

(** C2, as stated, fails: the table is empty, the cache is reachable and
    cold, the backend answers the same both times, and the second envelope
    still says [from_cache] false. *)
Lemma C2_counterexample :
  let o1 := receive_client_request (Demo.server Demo.empty_table) Demo.empty_table ∅
              Demo.sqlite_tables in
  let o2 := receive_client_request (Demo.server Demo.empty_table) Demo.empty_table
              (out_store o1) Demo.sqlite_tables in
  out_result o1 = Ok (success_envelope "1718000000.5" (PList []) false) /\
  out_result o2 = Ok (success_envelope "1718000000.5" (PList []) false) /\
  field "from_cache" (success_envelope "1718000000.5" (PList []) false) <> Some (PBool true).
Proof.
  cbv zeta. split; [vm_compute; reflexivity|].
  split; [vm_compute; reflexivity|]. discriminate.
Qed.

(** The data of the two envelopes differ when the result holds an object
    JSON cannot carry: the cache hands back its [str()]. *)
Lemma cached_decimal_comes_back_as_text :
  let o1 := receive_client_request (Demo.server Demo.priced) Demo.priced ∅
              Demo.sqlite_tables in
  let o2 := receive_client_request (Demo.server Demo.priced) Demo.priced
              (out_store o1) Demo.sqlite_tables in
  out_result o1 =
    Ok (success_envelope "1718000000.5"
          (PList [PDict [("price", PObj "Decimal" "12.50" "Decimal('12.50')")]]) false) /\
  out_result o2 =
    Ok (success_envelope "1718000000.5" (PList [PDict [("price", PStr "12.50")]]) true).
Proof. cbv zeta. split; vm_compute; reflexivity. Qed.

(* ===================================================================== *)
(** ** C6: an unreachable cache *)
(* ===================================================================== *)

(** C6.  Every Redis [get] and [setex] raises and the handler of the request
    returns [data]: [receive] answers with a success envelope carrying
    [data] and [from_cache] false, and the store is left as it was.  This
    holds with a cache key and a cache client as much as without. *)
Theorem C6_cache_outage_is_invisible :
  forall (srv : Server) (w : World) (st : gmap string cache_text) (raw : pyval)
         (req : DatabaseRequest) (tr : list Event) (data : pyval) (ts : string),
    (forall k, redis_get_exn w k <> None) ->
    (forall k ttl, redis_setex_exn w k ttl <> None) ->
    parse_request raw = Ok req ->
    route_request srv w req = (tr, Ok data) ->
    src_stat w = Ok ts ->
    receive_client_request srv w st raw =
      {| out_store := st; out_trace := tr;
         out_result := Ok (success_envelope ts data false) |}.
Proof.
  intros srv w st raw req tr data ts Hg Hs Hp Hr Ht.
  assert (Hmiss : lookup_step srv w st req = PNone).
  { unfold lookup_step.
    destruct (py_truthy (cache_key req) && redis_client srv); [|reflexivity].
    specialize (Hg (cache_key req)).
    destruct (redis_get_exn w (cache_key req)) as [e|] eqn:He; [|congruence].
    now apply (check_cache_get_raises srv w st _ e). }
  rewrite (receive_route_ok srv w st raw ts req tr data Ht Hp); auto.
  - rewrite store_in_cache_setex_raises by (intros; apply Hs).
    now destruct (py_truthy (cache_key req) && redis_client srv && py_truthy data).
  - now rewrite Hmiss.
Qed.

Lemma C6_cache_outage_is_invisible_witness :
  redis_client (Demo.server Demo.cache_down) = true /\
  receive_client_request (Demo.server Demo.cache_down) Demo.cache_down Demo.warm
      Demo.sqlite_tables =
    {| out_store := Demo.warm;
       out_trace :=
         [EvMakedirs (PStr "./data/app.db"); EvConnect Sqlite;
          EvExecute Sqlite (PStr "SELECT name FROM sqlite_master WHERE type='table'")
                    (PList []);
          EvFetchAll Sqlite];
       out_result :=
         Ok (success_envelope "1718000000.5" (PList (List.map PDict Demo.table_rows)) false) |}.
Proof.
  split; [reflexivity|].
  apply (C6_cache_outage_is_invisible
           (Demo.server Demo.cache_down) Demo.cache_down Demo.warm Demo.sqlite_tables
           (Demo.parsed "sqlite" "select"
              (PStr "SELECT name FROM sqlite_master WHERE type='table'")
              (PDict []) (PStr "sqlite_tables"))).
  - intros k. discriminate.
  - intros k ttl. discriminate.
  - reflexivity.
  - reflexivity.
  - reflexivity.
Defined.

(* ===================================================================== *)
(** ** C9: falsy results and the cache *)
(* ===================================================================== *)

(** C9.  The server has a cache client, the request a cache key, and the
    handler returns a falsy result [r].  As long as the lookup finds nothing
    truthy under the key (nothing at all, a text that denotes a falsy value,
    or a [get] that raises), the call answers [r] with [from_cache] false
    and leaves the store untouched: [r] is not written.  Hence each of [n]
    repetitions answers with [from_cache] false. *)
Theorem C9_falsy_result_never_cached :
  forall (srv : Server) (w : World) (raw : pyval) (req : DatabaseRequest)
         (tr : list Event) (r : pyval) (ts : string)
         (st : gmap string cache_text) (n : nat),
    redis_client srv = true ->
    parse_request raw = Ok req ->
    py_truthy (cache_key req) = true ->
    route_request srv w req = (tr, Ok r) ->
    py_truthy r = false ->
    src_stat w = Ok ts ->
    py_truthy (check_cache srv w st (cache_key req)) = false ->
    receive_client_request srv w st raw =
      {| out_store := st; out_trace := tr;
         out_result := Ok (success_envelope ts r false) |} /\
    receive_n srv w raw n st = (repeat (Ok (success_envelope ts r false)) n, st).
Proof.
  intros srv w raw req tr r ts st n Hc Hp Hck Hr Hf Ht Hmiss.
  assert (Hone : receive_client_request srv w st raw =
                 {| out_store := st; out_trace := tr;
                    out_result := Ok (success_envelope ts r false) |}).
  { rewrite (receive_route_ok srv w st raw ts req tr r Ht Hp); auto.
    - rewrite Hf. now rewrite andb_false_r.
    - unfold lookup_step. now rewrite Hck, Hc. }
  split; [exact Hone|].
  induction n as [|n IH]; cbn; [reflexivity|].
  rewrite Hone. cbn. now rewrite IH.
Qed.

Lemma C9_falsy_result_never_cached_witness :
  Demo.holds_empty !! "sqlite_tables" = Some (JsonText (PList [])) /\
  receive_n (Demo.server Demo.empty_table) Demo.empty_table Demo.sqlite_tables 3
            Demo.holds_empty =
    (repeat (Ok (success_envelope "1718000000.5" (PList []) false)) 3, Demo.holds_empty).
Proof.
  split; [reflexivity|].
  apply (C9_falsy_result_never_cached
           (Demo.server Demo.empty_table) Demo.empty_table Demo.sqlite_tables
           (Demo.parsed "sqlite" "select"
              (PStr "SELECT name FROM sqlite_master WHERE type='table'")
              (PDict []) (PStr "sqlite_tables"))
           [EvMakedirs (PStr "./data/app.db"); EvConnect Sqlite;
            EvExecute Sqlite (PStr "SELECT name FROM sqlite_master WHERE type='table'")
                      (PList []);
            EvFetchAll Sqlite]
           (PList []) "1718000000.5" Demo.holds_empty 3);
    reflexivity.
Defined.

(* ===================================================================== *)
(** ** Parsing *)
(* ===================================================================== *)

(** Only a mapping parses, and then every field but [db_type] is taken as
    it stands. *)
Lemma parse_request_inv (raw : pyval) (req : DatabaseRequest) :
  parse_request raw = Ok req ->
  exists kvs d,
    raw = PDict kvs /\
    match dict_lookup "db_type" kvs with Some v => v | None => PStr "" end = PStr d /\
    req = {| db_type := str_lower d;
             operation := match dict_lookup "operation" kvs with
                          | Some v => v | None => PStr "" end;
             query := match dict_lookup "query" kvs with
                      | Some v => v | None => PNone end;
             parameters := match dict_lookup "parameters" kvs with
                           | Some v => v | None => PDict [] end;
             cache_key := match dict_lookup "cache_key" kvs with
                          | Some v => v | None => PNone end |}.
Proof.
  unfold parse_request. destruct raw as [| | | | |kvs|]; cbn; try discriminate.
  destruct (match dict_lookup "db_type" kvs with Some v => v | None => PStr "" end)
    as [| | |d| | |] eqn:Hd; cbn; try discriminate.
  intros [= <-]. exists kvs, d. repeat split. exact Hd.
Qed.

Lemma parse_request_db_type (raw : pyval) (d : string) :
  py_get raw "db_type" (PStr "") = Ok (PStr d) ->
  exists req, parse_request raw = Ok req /\ db_type req = str_lower d.
Proof.
  destruct raw as [| | | | |kvs|]; cbn; try discriminate.
  intros [= Hd]. unfold parse_request. cbn. rewrite Hd. cbn.
  eexists. split; reflexivity.
Qed.

(* ===================================================================== *)
(** ** C4: a database type the router does not know *)
(* ===================================================================== *)

Lemma route_request_unsupported srv w req :
  is_supported (db_type req) = false ->
  route_request srv w req =
    ([], Raise (Exn ValueError ("Unsupported database type: " +:+ db_type req))).
Proof.
  unfold is_supported, route_request. intros Hu.
  apply orb_false_elim in Hu as [Hu Hmongo].
  apply orb_false_elim in Hu as [Hu Hmysql].
  apply orb_false_elim in Hu as [Hsqlite Hpg].
  now rewrite Hsqlite, Hpg, Hmysql, Hmongo.
Qed.

(** C4, as amended.  The raw [db_type] is a string, or is absent and then
    taken to be empty, and lower-cased it is none of the four supported
    names.  Unless a truthy value cached under the request's key ends the
    call first, and provided the timestamp can be read, [receive] returns an
    error envelope whose message is "Unsupported database type: " followed
    by the lower-cased name; no driver is called. *)
Theorem C4_unsupported_db_type :
  forall (srv : Server) (w : World) (st : gmap string cache_text) (raw : pyval)
         (d ts : string),
    py_get raw "db_type" (PStr "") = Ok (PStr d) ->
    is_supported (str_lower d) = false ->
    (forall req, parse_request raw = Ok req ->
                 py_truthy (lookup_step srv w st req) = false) ->
    src_stat w = Ok ts ->
    receive_client_request srv w st raw =
      {| out_store := st; out_trace := [];
         out_result :=
           Ok (error_envelope ts ("Unsupported database type: " +:+ str_lower d)) |}.
Proof.
  intros srv w st raw d ts Hd Hu Hmiss Ht.
  destruct (parse_request_db_type raw d Hd) as (req & Hp & Hdb).
  rewrite <- Hdb in *.
  now rewrite (receive_route_error srv w st raw ts req [] _ Ht Hp (Hmiss req Hp)
                 (route_request_unsupported srv w req Hu)).
Qed.

Lemma C4_unsupported_db_type_witness :
  dict_lookup "db_type" [("operation", PStr "select")] = None /\
  receive_client_request (Demo.server Demo.calm) Demo.calm Demo.warm Demo.no_db_type =
    {| out_store := Demo.warm; out_trace := [];
       out_result :=
         Ok (error_envelope "1718000000.5" "Unsupported database type: ") |}.
Proof.
  split; [reflexivity|].
  apply (C4_unsupported_db_type (Demo.server Demo.calm) Demo.calm Demo.warm
           Demo.no_db_type "" "1718000000.5").
  - reflexivity.
  - reflexivity.
  - intros req Hreq. vm_compute in Hreq. injection Hreq as <-. reflexivity.
  - reflexivity.
Defined.

(** C4, as stated, fails: the type is unknown, but the key of the request
    holds a cached result, and the caller gets a success envelope. *)
Lemma C4_counterexample :
  py_get Demo.oracle_request "db_type" (PStr "") = Ok (PStr "Oracle") /\
  is_supported (str_lower "Oracle") = false /\
  out_result (receive_client_request (Demo.server Demo.calm) Demo.calm Demo.warm
                Demo.oracle_request) =
    Ok (success_envelope "1718000000.5" (PList [PDict [("name", PStr "users")]]) true) /\
  field "status"
    (success_envelope "1718000000.5" (PList [PDict [("name", PStr "users")]]) true)
    <> Some (PStr "error").
Proof.
  split; [reflexivity|]. split; [reflexivity|].
  split; [vm_compute; reflexivity|discriminate].
Qed.

(* ===================================================================== *)
(** ** C5: a supported backend that is switched off or not installed *)
(* ===================================================================== *)

Lemma route_request_named srv w req k :
  db_type req = backend_name k -> route_request srv w req = handler k srv w req.
Proof.
  unfold route_request. intros ->. now destruct k.
Qed.

Lemma not_available_true srv w k :
  k <> Sqlite ->
  unavailable srv w k = true ->
  not_available srv (library_present w k) (backend_name k) = Ok true.
Proof.
  unfold unavailable, not_available, disabled. intros _ Hu.
  destruct (library_present w k); cbn in *; [|reflexivity].
  destruct (py_getitem (config srv) (backend_name k)) as [sec|]; [|discriminate]. cbn.
  destruct (py_getitem sec "enabled") as [en|]; [|discriminate]. cbn.
  now rewrite Hu.
Qed.

Lemma handler_unavailable srv w req k :
  unavailable srv w k = true ->
  handler k srv w req = ([], Raise (Exn RuntimeError (unavailable_message k))).
Proof.
  intros Hu. destruct k; cbn [handler unavailable_message].
  - unfold unavailable, disabled in Hu. cbn in Hu. unfold handle_sqlite.
    destruct (py_getitem (config srv) "sqlite") as [sec|]; [|discriminate]. cbn.
    destruct (py_getitem sec "enabled") as [en|]; [|discriminate]. cbn.
    now rewrite Hu.
  - unfold handle_postgresql.
    change (POSTGRESQL_AVAILABLE w) with (library_present w Postgresql).
    change "postgresql" with (backend_name Postgresql).
    now rewrite (not_available_true srv w Postgresql).
  - unfold handle_mysql.
    change (MYSQL_AVAILABLE w) with (library_present w Mysql).
    change "mysql" with (backend_name Mysql).
    now rewrite (not_available_true srv w Mysql).
  - unfold handle_mongodb.
    change (MONGODB_AVAILABLE w) with (library_present w Mongodb).
    change "mongodb" with (backend_name Mongodb).
    now rewrite (not_available_true srv w Mongodb).
Qed.

(** C5, as amended.  The request names one of the four backends, and that
    backend has [enabled] false in the configuration or its client library
    was not importable.  Unless a truthy value cached under the request's
    key ends the call first, and provided the timestamp can be read,
    [receive] returns an error envelope whose message says that the backend
    is not available or not enabled; no driver is called. *)
Theorem C5_unavailable_backend :
  forall (srv : Server) (w : World) (st : gmap string cache_text) (raw : pyval)
         (req : DatabaseRequest) (k : Backend) (ts : string),
    parse_request raw = Ok req ->
    db_type req = backend_name k ->
    unavailable srv w k = true ->
    py_truthy (lookup_step srv w st req) = false ->
    src_stat w = Ok ts ->
    receive_client_request srv w st raw =
      {| out_store := st; out_trace := [];
         out_result := Ok (error_envelope ts (unavailable_message k)) |}.
Proof.
  intros srv w st raw req k ts Hp Hk Hu Hmiss Ht.
  assert (Hr : route_request srv w req =
               ([], Raise (Exn RuntimeError (unavailable_message k)))).
  { rewrite (route_request_named srv w req k Hk). now apply handler_unavailable. }
  now rewrite (receive_route_error srv w st raw ts req [] _ Ht Hp Hmiss Hr).
Qed.

Lemma C5_unavailable_backend_witness :
  POSTGRESQL_AVAILABLE Demo.no_psycopg = false /\
  receive_client_request (Demo.server Demo.no_psycopg) Demo.no_psycopg ∅ Demo.pg_request =
    {| out_store := ∅; out_trace := [];
       out_result :=
         Ok (error_envelope "1718000000.5" "PostgreSQL not available or not enabled") |}.
Proof.
  split; [reflexivity|].
  apply (C5_unavailable_backend (Demo.server Demo.no_psycopg) Demo.no_psycopg ∅
           Demo.pg_request
           (Demo.parsed "postgresql" "select" (PStr "SELECT name FROM t") (PDict [])
              (PStr "sqlite_tables"))
           Postgresql "1718000000.5");
    reflexivity.
Defined.

(** C5, as stated, fails: psycopg2 is not installed, but the key of the
    request holds a cached result, and the caller gets a success envelope. *)
Lemma C5_counterexample :
  unavailable (Demo.server Demo.no_psycopg) Demo.no_psycopg Postgresql = true /\
  out_result (receive_client_request (Demo.server Demo.no_psycopg) Demo.no_psycopg
                Demo.warm Demo.pg_request) =
    Ok (success_envelope "1718000000.5" (PList [PDict [("name", PStr "users")]]) true) /\
  field "status"
    (success_envelope "1718000000.5" (PList [PDict [("name", PStr "users")]]) true)
    <> Some (PStr "error").
Proof.
  split; [reflexivity|].
  split; [vm_compute; reflexivity|discriminate].
Qed.

(* ===================================================================== *)
(** ** C8: the parameters of the parsed request *)
(* ===================================================================== *)

(** C8, as amended.  A raw request that parses is a mapping; the parsed
    [parameters] is the empty mapping when the raw mapping has no
    "parameters" key, and otherwise the raw value unchanged, so that a null
    stays [None] and a list stays a list. *)
Theorem C8_parameters_taken_as_given :
  forall (raw : pyval) (req : DatabaseRequest),
    parse_request raw = Ok req ->
    exists kvs,
      raw = PDict kvs /\
      (dict_lookup "parameters" kvs = None -> parameters req = PDict []) /\
      (forall v, dict_lookup "parameters" kvs = Some v -> parameters req = v).
Proof.
  intros raw req Hp.
  destruct (parse_request_inv raw req Hp) as (kvs & d & -> & _ & ->).
  exists kvs. cbn. repeat split.
  - now intros ->.
  - now intros v ->.
Qed.

Lemma C8_parameters_taken_as_given_witness :
  exists kvs,
    Demo.no_db_type = PDict kvs /\
    (dict_lookup "parameters" kvs = None ->
     parameters (Demo.parsed "" "select" PNone (PDict []) PNone) = PDict []) /\
    (forall v, dict_lookup "parameters" kvs = Some v ->
               parameters (Demo.parsed "" "select" PNone (PDict []) PNone) = v).
Proof.
  apply (C8_parameters_taken_as_given Demo.no_db_type
           (Demo.parsed "" "select" PNone (PDict []) PNone)).
  reflexivity.
Defined.

(** C8, as stated, fails: a raw "parameters" that is null parses to [None],
    which is not the empty mapping, nor a mapping at all. *)
Lemma C8_counterexample :
  dict_lookup "parameters"
    [("db_type", PStr "mongodb"); ("operation", PStr "find"); ("parameters", PNone)]
    = Some PNone /\
  parse_request Demo.null_parameters =
    Ok (Demo.parsed "mongodb" "find" PNone PNone PNone) /\
  parameters (Demo.parsed "mongodb" "find" PNone PNone PNone) <> PDict [].
Proof.
  split; [reflexivity|]. split; [reflexivity|]. discriminate.
Qed.

(* ===================================================================== *)
(** ** C10: the timestamp of the envelopes *)
(* ===================================================================== *)

Lemma receive_timestamp srv w st raw ts :
  src_stat w = Ok ts ->
  exists env,
    out_result (receive_client_request srv w st raw) = Ok env /\
    field "timestamp" env = Some (PStr ts).
Proof.
  intros Ht.
  destruct (parse_request raw) as [req|e] eqn:Hp.
  - destruct (py_truthy (lookup_step srv w st req)) eqn:Hhit.
    + rewrite (receive_cache_hit srv w st raw ts req Ht Hp Hhit). cbn. eauto.
    + destruct (route_request srv w req) as [tr [r|e]] eqn:Hr.
      * rewrite (receive_route_ok srv w st raw ts req tr r Ht Hp Hhit Hr). cbn. eauto.
      * rewrite (receive_route_error srv w st raw ts req tr e Ht Hp Hhit Hr). cbn. eauto.
  - rewrite (receive_parse_error srv w st raw ts e Ht Hp). cbn. eauto.
Qed.

(** C10, as amended.  The timestamp of an envelope is the modification time
    of the source file as read during the call, whatever the request, the
    outcome, the cache or the backend: two calls carry equal timestamps
    whenever the file has the same modification time at both. *)
Theorem C10_timestamp_is_file_mtime :
  forall (srv : Server) (w1 w2 : World) (st1 st2 : gmap string cache_text)
         (raw1 raw2 : pyval) (ts : string),
    src_stat w1 = Ok ts ->
    src_stat w2 = Ok ts ->
    exists env1 env2,
      out_result (receive_client_request srv w1 st1 raw1) = Ok env1 /\
      out_result (receive_client_request srv w2 st2 raw2) = Ok env2 /\
      field "timestamp" env1 = Some (PStr ts) /\
      field "timestamp" env2 = field "timestamp" env1.
Proof.
  intros srv w1 w2 st1 st2 raw1 raw2 ts H1 H2.
  destruct (receive_timestamp srv w1 st1 raw1 ts H1) as (env1 & Hr1 & Hf1).
  destruct (receive_timestamp srv w2 st2 raw2 ts H2) as (env2 & Hr2 & Hf2).
  exists env1, env2. repeat split; auto. congruence.
Qed.

Lemma C10_timestamp_is_file_mtime_witness :
  exists env1 env2,
    out_result (receive_client_request (Demo.server Demo.calm) Demo.calm ∅
                  Demo.sqlite_tables) = Ok env1 /\
    out_result (receive_client_request (Demo.server Demo.calm) Demo.no_psycopg Demo.warm
                  Demo.pg_request) = Ok env2 /\
    field "timestamp" env1 = Some (PStr "1718000000.5") /\
    field "timestamp" env2 = field "timestamp" env1.
Proof.
  apply (C10_timestamp_is_file_mtime (Demo.server Demo.calm) Demo.calm Demo.no_psycopg
           ∅ Demo.warm Demo.sqlite_tables Demo.pg_request "1718000000.5");
    reflexivity.
Defined.

(** C10, as stated, fails: the source file is modified between two
    identical calls to the same server, and the timestamps differ. *)
Lemma C10_counterexample :
  exists env1 env2,
    out_result (receive_client_request (Demo.server Demo.calm) Demo.calm ∅
                  Demo.sqlite_tables) = Ok env1 /\
    out_result (receive_client_request (Demo.server Demo.calm) Demo.touched ∅
                  Demo.sqlite_tables) = Ok env2 /\
    field "timestamp" env1 <> field "timestamp" env2.
Proof.
  do 2 eexists. split; [vm_compute; reflexivity|].
  split; [vm_compute; reflexivity|]. discriminate.
Qed.

(* ===================================================================== *)
(** ** C3: the read path and the write path of the relational handlers *)
(* ===================================================================== *)

Lemma relational_is_read_strings (req : DatabaseRequest) (op q : string) :
  operation req = PStr op ->
  query req = PStr q ->
  relational_is_read req = Ok (select_marked op q).
Proof.
  intros Ho Hq. unfold relational_is_read, select_marked. rewrite Ho, Hq. cbn.
  now destruct (String.eqb (str_lower op) "select").
Qed.

(** The left operand decides alone when it holds: the query is not looked
    at, and may be anything. *)
Lemma relational_is_read_operation (req : DatabaseRequest) (op : string) :
  operation req = PStr op ->
  str_lower op = "select" ->
  relational_is_read req = Ok true.
Proof.
  intros Ho Hl. unfold relational_is_read. rewrite Ho. cbn. now rewrite Hl.
Qed.

(** C3.  A relational handler whose backend is enabled and whose driver
    goes through the session without raising, called with a string
    operation and a string query: it fetches and returns the rows as
    mappings, without committing, exactly when the lower-cased operation is
    "select" or the lower-cased query starts with "select"; in every other
    case it commits, fetches nothing, and returns the mutation summary. *)
Theorem C3_read_path_iff_select :
  forall (k : Backend) (srv : Server) (w : World) (req : DatabaseRequest)
         (op q : string),
    is_relational k = true ->
    operation req = PStr op ->
    query req = PStr q ->
    driver_ok k srv w req ->
    exists tr res,
      handler k srv w req = (tr, Ok res) /\
      if select_marked op q
      then returns_fetched_rows k w req res /\
           In (EvFetchAll k) tr /\ ~ In (EvCommit k) tr
      else returns_summary k w req res /\
           In (EvCommit k) tr /\ ~ In (EvFetchAll k) tr.
Proof.
  intros k srv w req op q Hrel Ho Hq Hok.
  pose proof (relational_is_read_strings req op q Ho Hq) as Hread.
  destruct k; try discriminate; cbn [handler driver_ok] in *.
  - destruct Hok as (p & cur & rows & Hcfg & Hmk & Hconn & Hex & Hfetch & Hcommit).
    invert_configured. cbn in *. unfold handle_sqlite.
    run_handler.
    destruct (select_marked op q); cbn; run_handler.
    + do 2 eexists. split; [reflexivity|]. split; [|split].
      * exists cur, rows. auto.
      * cbn. tauto.
      * cbn. intros [H|[H|[H|[H|[]]]]]; discriminate.
    + do 2 eexists. split; [reflexivity|]. split; [|split].
      * exists cur. auto.
      * cbn. tauto.
      * cbn. intros [H|[H|[H|[H|[]]]]]; discriminate.
  - destruct Hok as (args & cur & rows & Hlib & Hrdc & Hcfg & Hconn & Hex & Hfetch & Hcommit).
    invert_configured. cbn in *. unfold handle_postgresql, not_available.
    run_handler. unfold finally. run_handler.
    destruct (select_marked op q); cbn; run_handler.
    + do 2 eexists. split; [reflexivity|]. split; [|split].
      * exists cur, rows. auto.
      * cbn. tauto.
      * cbn. intros [H|[H|[H|[H|[]]]]]; discriminate.
    + do 2 eexists. split; [reflexivity|]. split; [|split].
      * exists cur. auto.
      * cbn. tauto.
      * cbn. intros [H|[H|[H|[H|[]]]]]; discriminate.
  - destruct Hok as (args & cur & cols & rows & Hlib & Hcfg & Hconn & Hex & Hdesc
                     & Hfetch & Hcommit).
    invert_configured. cbn in *. unfold handle_mysql, not_available.
    run_handler. unfold finally. run_handler.
    destruct (select_marked op q); cbn; run_handler.
    + do 2 eexists. split; [reflexivity|]. split; [|split].
      * exists cur, cols, rows. auto.
      * cbn. tauto.
      * cbn. intros [H|[H|[H|[H|[]]]]]; discriminate.
    + do 2 eexists. split; [reflexivity|]. split; [|split].
      * exists cur. auto.
      * cbn. tauto.
      * cbn. intros [H|[H|[H|[H|[]]]]]; discriminate.
Qed.

Lemma C3_read_path_iff_select_witness :
  select_marked "update" "Select name from t" = true /\
  exists tr res,
    handler Postgresql (Demo.server Demo.calm) Demo.calm
      (Demo.parsed "postgresql" "update" (PStr "Select name from t") (PDict []) PNone)
      = (tr, Ok res) /\
    returns_fetched_rows Postgresql Demo.calm
      (Demo.parsed "postgresql" "update" (PStr "Select name from t") (PDict []) PNone) res /\
    In (EvFetchAll Postgresql) tr /\ ~ In (EvCommit Postgresql) tr.
Proof.
  split; [reflexivity|].
  refine (C3_read_path_iff_select Postgresql (Demo.server Demo.calm) Demo.calm
            (Demo.parsed "postgresql" "update" (PStr "Select name from t") (PDict []) PNone)
            "update" "Select name from t" eq_refl eq_refl eq_refl _).
  exists [PStr "localhost"; PInt 5432; PStr "mcp_db"; PStr "postgres"; PStr "password"].
  eexists. exists Demo.table_rows.
  split; [reflexivity|]. split; [reflexivity|].
  split.
  { eexists. exists (PBool true).
    split; [reflexivity|]. split; [reflexivity|]. split; [reflexivity|].
    repeat constructor. }
  split; [reflexivity|]. split; [reflexivity|]. split; reflexivity.
Defined.

(* ===================================================================== *)
(** ** C7: the read marker of each backend *)
(* ===================================================================== *)

Lemma lowered_find_is_no_other_operation (op : string) :
  str_lower op = "find" ->
  String.eqb op "insert" = false /\ String.eqb op "update" = false /\
  String.eqb op "delete" = false.
Proof.
  intros Hl. repeat split;
    (destruct (String.eqb_spec op "insert") as [->|]; try discriminate;
     destruct (String.eqb_spec op "update") as [->|]; try discriminate;
     destruct (String.eqb_spec op "delete") as [->|]; try discriminate;
     reflexivity).
Qed.

(** What the handlers do with the read marker.  For the relational backends
    an operation that lower-cases to "select" classifies the request as a
    read, whatever its query.  For the document store the operation has to
    be "find" exactly: then a [find] runs against the collection named by
    [parameters.collection] ("default" when the key is absent) and its
    documents are returned with [_id] turned into a string.  Any other
    spelling of "find" is rejected as an unsupported operation. *)
Lemma read_marker_per_backend :
  forall (srv : Server) (w : World) (req : DatabaseRequest) (op : string),
    operation req = PStr op ->
    (str_lower op = "select" -> relational_is_read req = Ok true) /\
    (op = "find" ->
     forall db coll q docs,
       mongo_ready srv w db ->
       py_get (parameters req) "collection" (PStr "default") = Ok coll ->
       py_get (parameters req) "query" (PDict []) = Ok q ->
       mongo_find w db coll q = Ok docs ->
       handle_mongodb srv w req =
         ([EvConnect Mongodb; EvFind coll q; EvClose Mongodb],
          Ok (PList (List.map (fun d => PDict (stringify_id d)) docs)))) /\
    (str_lower op = "find" -> op <> "find" ->
     forall db,
       mongo_ready srv w db ->
       handle_mongodb srv w req =
         ([EvConnect Mongodb; EvClose Mongodb],
          Raise (Exn ValueError ("Unsupported MongoDB operation: " +:+ op)))).
Proof.
  intros srv w req op Ho. split; [|split].
  - intros Hl. now apply (relational_is_read_operation req op).
  - intros -> db coll q docs (Hlib & host & port & Hcfg & Hcl) Hcoll Hq Hfind.
    invert_configured. cbn [backend_name] in *. unfold handle_mongodb, not_available.
    run_handler. unfold finally. run_handler. rewrite Ho. cbn.
    run_handler. reflexivity.
  - intros Hl Hne db (Hlib & host & port & Hcfg & Hcl).
    destruct (lowered_find_is_no_other_operation op Hl) as (Hi & Hu & Hd).
    assert (Hf : String.eqb op "find" = false) by now apply String.eqb_neq.
    invert_configured. cbn [backend_name] in *. unfold handle_mongodb, not_available.
    run_handler. unfold finally. run_handler. rewrite Ho. cbn.
    rewrite Hf, Hi, Hu, Hd. cbn. reflexivity.
Qed.

Lemma find_on_default_collection :
  dict_lookup "collection" [] = None /\
  handle_mongodb (Demo.server Demo.calm) Demo.calm
      (Demo.parsed "mongodb" "find" PNone (PDict []) PNone) =
    ([EvConnect Mongodb; EvFind (PStr "default") (PDict []); EvClose Mongodb],
     Ok (PList [PDict [("_id", PStr "65a1f0"); ("name", PStr "ada")]])).
Proof.
  split; [reflexivity|].
  refine (proj1 (proj2 (read_marker_per_backend (Demo.server Demo.calm) Demo.calm
            (Demo.parsed "mongodb" "find" PNone (PDict []) PNone) "find" eq_refl))
            eq_refl (PStr "mcp_db") (PStr "default") (PDict []) Demo.documents
            _ eq_refl eq_refl eq_refl).
  split; [reflexivity|].
  exists (PStr "localhost"), (PInt 27017). split; [|reflexivity].
  eexists. exists (PBool true).
  split; [reflexivity|]. split; [reflexivity|]. split; [reflexivity|].
  repeat constructor.
Qed.

(** C7 at the failing input.  "FIND" is "find" in another letter case and
    the document store is ready; where the relational handlers fold the
    case of the operation, this handler compares it as it is, runs no
    [find], and rejects the operation. *)
Theorem C7_upper_case_find_rejected :
  str_lower "FIND" = "find" /\
  handle_mongodb (Demo.server Demo.calm) Demo.calm
      (Demo.parsed "mongodb" "FIND" PNone (PDict []) PNone) =
    ([EvConnect Mongodb; EvClose Mongodb],
     Raise (Exn ValueError "Unsupported MongoDB operation: FIND")).
Proof. split; reflexivity. Qed.

(* ===================================================================== *)
(** ** Dictionaries built by the handlers *)
(* ===================================================================== *)

Lemma dict_lookup_set_eq (k : string) (v : pyval) (d : list (string * pyval)) :
  dict_lookup k (dict_set k v d) = Some v.
Proof.
  induction d as [|[k' v'] d IH]; cbn.
  - now rewrite String.eqb_refl.
  - destruct (String.eqb k k') eqn:E; cbn; rewrite E; auto.
Qed.

Lemma dict_lookup_set_ne (k k' : string) (v : pyval) (d : list (string * pyval)) :
  k <> k' -> dict_lookup k' (dict_set k v d) = dict_lookup k' d.
Proof.
  intros Hne. induction d as [|[k0 v0] d IH]; cbn.
  - destruct (String.eqb_spec k' k); congruence.
  - destruct (String.eqb_spec k k0) as [->|]; cbn.
    + destruct (String.eqb_spec k' k0); congruence.
    + now rewrite IH.
Qed.

Lemma dict_lookup_in_keys (k : string) (d : list (string * pyval)) :
  In k (List.map fst d) <-> dict_lookup k d <> None.
Proof.
  induction d as [|[k' v'] d IH]; cbn.
  - tauto.
  - destruct (String.eqb_spec k k') as [->|Hne].
    + split; [discriminate|auto].
    + rewrite <- IH. split; [intros [?|?]; congruence || assumption|auto].
Qed.

(** Assigning to a key that is there keeps the keys and their order;
    assigning to a new key appends it. *)
Lemma dict_set_keys (k : string) (v : pyval) (d : list (string * pyval)) :
  List.map fst (dict_set k v d) =
    match dict_lookup k d with
    | Some _ => List.map fst d
    | None => List.map fst d ++ [k]
    end.
Proof.
  induction d as [|[k' v'] d IH]; cbn; [reflexivity|].
  destruct (String.eqb k k'); cbn; [reflexivity|].
  rewrite IH. now destruct (dict_lookup k d).
Qed.

Lemma dict_set_twice (k : string) (v v' : pyval) (d : list (string * pyval)) :
  dict_set k v (dict_set k v' d) = dict_set k v d.
Proof.
  induction d as [|[k0 v0] d IH]; cbn.
  - now rewrite String.eqb_refl.
  - destruct (String.eqb k k0) eqn:E; cbn; rewrite E; [reflexivity|].
    now rewrite IH.
Qed.

Lemma dict_set_NoDup (k : string) (v : pyval) (d : list (string * pyval)) :
  List.NoDup (List.map fst d) -> List.NoDup (List.map fst (dict_set k v d)).
Proof.
  intros Hnd. rewrite dict_set_keys.
  destruct (dict_lookup k d) eqn:E; [assumption|].
  apply List.NoDup_app; repeat split; auto.
  - constructor; [intros []|constructor].
  - intros x Hx [<-|[]]. apply dict_lookup_in_keys in Hx. congruence.
Qed.

Lemma fold_dict_set_NoDup (ps acc : list (string * pyval)) :
  List.NoDup (List.map fst acc) ->
  List.NoDup (List.map fst (fold_left (fun d kv => dict_set (fst kv) (snd kv) d) ps acc)).
Proof.
  revert acc. induction ps as [|[k v] ps IH]; cbn; intros acc Hnd; [assumption|].
  apply IH. now apply dict_set_NoDup.
Qed.

Lemma fold_dict_set_lookup (k : string) (ps acc : list (string * pyval)) :
  dict_lookup k (fold_left (fun d kv => dict_set (fst kv) (snd kv) d) ps acc) =
    match dict_lookup k (rev ps) with
    | Some v => Some v
    | None => dict_lookup k acc
    end.
Proof.
  revert acc. induction ps as [|[k' v'] ps IH]; cbn; intros acc; [reflexivity|].
  rewrite IH.
  assert (Happ : forall l, dict_lookup k (l ++ [(k', v')]) =
                           match dict_lookup k l with
                           | Some v => Some v
                           | None => if String.eqb k k' then Some v' else None
                           end).
  { induction l as [|[a b] l IHl]; cbn; [reflexivity|].
    destruct (String.eqb k a); auto. }
  rewrite Happ. destruct (dict_lookup k (rev ps)); [reflexivity|].
  destruct (String.eqb_spec k k') as [->|Hne].
  - apply dict_lookup_set_eq.
  - apply dict_lookup_set_ne. congruence.
Qed.

(** X1.  [dict(zip(columns, row))] as the MySQL handler builds it: every
    column name is a key once, and a name that several columns share keeps
    the value of the last of them. *)
Theorem dict_of_pairs_last_wins :
  forall (pairs : list (string * pyval)),
    List.NoDup (List.map fst (dict_of_pairs pairs)) /\
    (forall k, dict_lookup k (dict_of_pairs pairs) = dict_lookup k (rev pairs)) /\
    (forall k, In k (List.map fst (dict_of_pairs pairs)) <-> In k (List.map fst pairs)).
Proof.
  intros pairs. unfold dict_of_pairs.
  assert (Hl : forall k, dict_lookup k
                 (fold_left (fun d kv => dict_set (fst kv) (snd kv) d) pairs [])
               = dict_lookup k (rev pairs)).
  { intros k. rewrite fold_dict_set_lookup. cbn. now destruct (dict_lookup k (rev pairs)). }
  split; [|split].
  - apply fold_dict_set_NoDup. constructor.
  - exact Hl.
  - intros k. rewrite dict_lookup_in_keys, Hl, <- dict_lookup_in_keys.
    rewrite List.map_rev, <- List.in_rev. reflexivity.
Qed.

(** X2.  The conversion of [_id] in a found document: the identifier is
    replaced by its [str()], every other field and the order of the fields
    are kept, and converting twice is converting once. *)
Theorem stringify_id_only_touches_id :
  forall (doc : Row),
    dict_lookup "_id" (stringify_id doc) =
      option_map (fun v => PStr (py_str v)) (dict_lookup "_id" doc) /\
    (forall k, k <> "_id" -> dict_lookup k (stringify_id doc) = dict_lookup k doc) /\
    List.map fst (stringify_id doc) = List.map fst doc /\
    stringify_id (stringify_id doc) = stringify_id doc.
Proof.
  intros doc. unfold stringify_id at 1 2 3.
  destruct (dict_lookup "_id" doc) as [v|] eqn:E; cbn.
  - split; [apply dict_lookup_set_eq|].
    split; [intros k Hk; apply dict_lookup_set_ne; congruence|].
    split; [rewrite dict_set_keys, E; reflexivity|].
    unfold stringify_id. rewrite E, dict_lookup_set_eq. cbn.
    apply dict_set_twice.
  - repeat split; auto. unfold stringify_id. rewrite E; cbn. now rewrite E.
Qed.

(* ===================================================================== *)
(** ** What the cache stores *)
(* ===================================================================== *)

(** X3.  Whatever the handler returned, the value the cache hands back is
    made of JSON's own types, and serialising it again changes nothing:
    once a result comes from the cache it stays the same however often it
    is cached and read again. *)
Theorem json_coerce_native_and_stable :
  forall (v : pyval),
    json_native (json_coerce v) = true /\
    json_coerce (json_coerce v) = json_coerce v.
Proof.
  assert (Hn : forall v, json_native (json_coerce v) = true).
  { induction v as [| b | z | s | l IH | kvs IH | c s r] using pyval_nested_ind;
      cbn; try reflexivity.
    - induction IH as [|x l' Hx _ IHl]; cbn; [reflexivity|]. now rewrite Hx, IHl.
    - induction IH as [|[k x] l' Hx _ IHl]; cbn in *; [reflexivity|]. now rewrite Hx, IHl. }
  intros v. split; [apply Hn|]. apply json_coerce_native, Hn.
Qed.

(* ===================================================================== *)
(** ** Parsing, continued *)
(* ===================================================================== *)

Lemma ascii_lower_idempotent (c : ascii) : ascii_lower (ascii_lower c) = ascii_lower c.
Proof.
  destruct c as [[] [] [] [] [] [] [] []]; reflexivity.
Qed.

Lemma str_lower_idempotent (s : string) : str_lower (str_lower s) = str_lower s.
Proof.
  induction s as [|c s IH]; cbn; [reflexivity|].
  now rewrite ascii_lower_idempotent, IH.
Qed.

Lemma receive_depends_on_parse srv w st raw1 raw2 :
  parse_request raw1 = parse_request raw2 ->
  receive_client_request srv w st raw1 = receive_client_request srv w st raw2.
Proof.
  intros Hp. unfold receive_client_request, pipeline. now rewrite Hp.
Qed.

Lemma parse_request_dict (kvs : list (string * pyval)) (d : string) :
  match dict_lookup "db_type" kvs with Some v => v | None => PStr "" end = PStr d ->
  parse_request (PDict kvs) =
    Ok {| db_type := str_lower d;
          operation := match dict_lookup "operation" kvs with
                       | Some v => v | None => PStr "" end;
          query := match dict_lookup "query" kvs with
                   | Some v => v | None => PNone end;
          parameters := match dict_lookup "parameters" kvs with
                        | Some v => v | None => PDict [] end;
          cache_key := match dict_lookup "cache_key" kvs with
                       | Some v => v | None => PNone end |}.
Proof.
  intros Hd. unfold parse_request. cbn. now rewrite Hd.
Qed.

(** X4.  [_parse_request] accepts exactly the mappings whose "db_type" is
    absent or a string; every other field may hold anything. *)
Theorem parse_request_succeeds_iff :
  forall (raw : pyval),
    (exists req, parse_request raw = Ok req) <->
    (exists kvs, raw = PDict kvs /\
                 (dict_lookup "db_type" kvs = None \/
                  exists d, dict_lookup "db_type" kvs = Some (PStr d))).
Proof.
  intros raw. split.
  - intros [req Hp]. destruct (parse_request_inv raw req Hp) as (kvs & d & -> & Hd & _).
    exists kvs. split; [reflexivity|].
    destruct (dict_lookup "db_type" kvs) as [v|]; [right|left; reflexivity].
    exists d. now rewrite Hd.
  - intros (kvs & -> & [Hn|[d Hd]]).
    + eexists. apply (parse_request_dict kvs ""). now rewrite Hn.
    + eexists. apply (parse_request_dict kvs d). now rewrite Hd.
Qed.

(** X5.  The [db_type] of a parsed request is in lower case: lower-casing
    it again gives the same string, so the router compares normalised
    names only. *)
Theorem parsed_db_type_is_lower_case :
  forall (raw : pyval) (req : DatabaseRequest),
    parse_request raw = Ok req ->
    str_lower (db_type req) = db_type req.
Proof.
  intros raw req Hp.
  destruct (parse_request_inv raw req Hp) as (kvs & d & _ & _ & ->). cbn.
  apply str_lower_idempotent.
Qed.

Lemma parsed_db_type_is_lower_case_witness :
  str_lower (db_type (Demo.parsed "postgresql" "select" (PStr "SELECT name FROM t")
                        (PDict []) (PStr "sqlite_tables"))) = "postgresql".
Proof.
  apply (parsed_db_type_is_lower_case Demo.pg_request). reflexivity.
Defined.

(** X6.  The letter case of "db_type" is immaterial to the gateway: two
    requests that differ only there get the same answer, make the same
    driver calls and leave the same store. *)
Theorem db_type_case_is_immaterial :
  forall (srv : Server) (w : World) (st : gmap string cache_text)
         (kvs : list (string * pyval)) (d1 d2 : string),
    str_lower d1 = str_lower d2 ->
    receive_client_request srv w st (PDict (dict_set "db_type" (PStr d1) kvs)) =
    receive_client_request srv w st (PDict (dict_set "db_type" (PStr d2) kvs)).
Proof.
  intros srv w st kvs d1 d2 Hl. apply receive_depends_on_parse.
  rewrite (parse_request_dict _ d1), (parse_request_dict _ d2)
    by now rewrite dict_lookup_set_eq.
  rewrite !dict_lookup_set_ne by discriminate.
  now rewrite Hl.
Qed.

Lemma db_type_case_is_immaterial_witness :
  receive_client_request (Demo.server Demo.calm) Demo.calm ∅
      (PDict (dict_set "db_type" (PStr "SQLite") [("operation", PStr "select")])) =
  receive_client_request (Demo.server Demo.calm) Demo.calm ∅
      (PDict (dict_set "db_type" (PStr "sqlite") [("operation", PStr "select")])).
Proof.
  apply (db_type_case_is_immaterial (Demo.server Demo.calm) Demo.calm ∅
           [("operation", PStr "select")] "SQLite" "sqlite").
  reflexivity.
Defined.

(** X7.  A request that is no mapping, or whose "db_type" is there and is
    no string, is answered with an error envelope naming the missing
    method, before the cache is looked at: no driver is called and the
    store is left alone, whatever it holds. *)
Theorem malformed_request_is_refused_first :
  forall (srv : Server) (w : World) (st : gmap string cache_text) (raw : pyval)
         (ts : string),
    src_stat w = Ok ts ->
    ((forall kvs, raw <> PDict kvs) ->
     receive_client_request srv w st raw =
       {| out_store := st; out_trace := [];
          out_result := Ok (error_envelope ts
            ("'" +:+ type_name raw +:+ "' object has no attribute 'get'")) |}) /\
    (forall kvs v,
        raw = PDict kvs ->
        dict_lookup "db_type" kvs = Some v ->
        (forall d, v <> PStr d) ->
        receive_client_request srv w st raw =
          {| out_store := st; out_trace := [];
             out_result := Ok (error_envelope ts
               ("'" +:+ type_name v +:+ "' object has no attribute 'lower'")) |}).
Proof.
  intros srv w st raw ts Ht. split.
  - intros Hnd.
    apply (receive_parse_error srv w st raw ts (has_no_attribute raw "get") Ht).
    destruct raw; try reflexivity. now destruct (Hnd kvs).
  - intros kvs v -> Hv Hns.
    apply (receive_parse_error srv w st _ ts (has_no_attribute v "lower") Ht).
    unfold parse_request. cbn. rewrite Hv. cbn.
    destruct v; try reflexivity. now destruct (Hns s).
Qed.

Lemma malformed_request_is_refused_first_witness :
  receive_client_request (Demo.server Demo.calm) Demo.calm Demo.warm
      (PDict [("db_type", PInt 7); ("cache_key", PStr "sqlite_tables")]) =
    {| out_store := Demo.warm; out_trace := [];
       out_result := Ok (error_envelope "1718000000.5"
                           "'int' object has no attribute 'lower'") |}.
Proof.
  refine (proj2 (malformed_request_is_refused_first (Demo.server Demo.calm) Demo.calm
                   Demo.warm _ "1718000000.5" eq_refl)
                [("db_type", PInt 7); ("cache_key", PStr "sqlite_tables")] (PInt 7)
                eq_refl eq_refl _).
  intros d. discriminate.
Defined.

(* ===================================================================== *)
(** ** The gateway and the store *)
(* ===================================================================== *)

(** X8.  Without a cache client, or for a request without a truthy cache
    key, the cache is out of the picture: the store is neither read nor
    written, the answer and the driver calls are the same whatever the store
    holds, and no envelope says [from_cache] true. *)
Theorem cache_is_bypassed :
  forall (srv : Server) (w : World) (st st' : gmap string cache_text) (raw : pyval),
    (forall req, parse_request raw = Ok req ->
                 py_truthy (cache_key req) && redis_client srv = false) ->
    out_store (receive_client_request srv w st raw) = st /\
    out_result (receive_client_request srv w st raw) =
      out_result (receive_client_request srv w st' raw) /\
    out_trace (receive_client_request srv w st raw) =
      out_trace (receive_client_request srv w st' raw) /\
    (forall env, out_result (receive_client_request srv w st raw) = Ok env ->
                 field "from_cache" env <> Some (PBool true)).
Proof.
  intros srv w st st' raw Hoff.
  unfold receive_client_request, pipeline, lookup_step.
  destruct (parse_request raw) as [req|e]; cbn.
  - rewrite (Hoff req eq_refl). cbn.
    destruct (route_request srv w req) as [tr [r|e]]; cbn;
      unfold format_response, format_error_response;
      destruct (src_stat w) as [ts|e']; cbn;
      repeat split; auto; try discriminate; intros env [= <-]; discriminate.
  - unfold format_error_response.
    destruct (src_stat w) as [ts|e']; cbn;
      repeat split; auto; try discriminate; intros env [= <-]; discriminate.
Qed.

Lemma cache_is_bypassed_witness :
  out_store (receive_client_request (Demo.server Demo.calm) Demo.calm Demo.warm
               (PDict [("db_type", PStr "sqlite"); ("operation", PStr "select");
                       ("query", PStr "SELECT 1"); ("cache_key", PStr "")]))
    = Demo.warm.
Proof.
  refine (proj1 (cache_is_bypassed (Demo.server Demo.calm) Demo.calm Demo.warm ∅ _ _)).
  intros req Hreq. vm_compute in Hreq. injection Hreq as <-. reflexivity.
Defined.

Lemma store_in_cache_frame srv w (st : gmap string cache_text) key data (k' : string) :
  (forall k, redis_key key = Ok k -> k <> k') ->
  store_in_cache srv w st key data !! k' = st !! k'.
Proof.
  intros Hk. unfold store_in_cache, redis_setex.
  destruct (redis_client srv); cbn; [|reflexivity].
  destruct (configured_ttl srv) as [ttl|e]; cbn; [|reflexivity].
  destruct (redis_setex_exn w key ttl); cbn; [reflexivity|].
  destruct (redis_key key) as [k|e]; cbn; [|reflexivity].
  apply lookup_insert_ne. now apply Hk.
Qed.

(** X9.  A call writes at most the entry of its own cache key: every other
    entry of the store is after the call what it was before. *)
Theorem receive_writes_only_its_key :
  forall (srv : Server) (w : World) (st : gmap string cache_text) (raw : pyval)
         (k' : string),
    (forall req k, parse_request raw = Ok req ->
                   redis_key (cache_key req) = Ok k -> k <> k') ->
    out_store (receive_client_request srv w st raw) !! k' = st !! k'.
Proof.
  intros srv w st raw k' Hk.
  unfold receive_client_request, pipeline.
  destruct (parse_request raw) as [req|e]; cbn.
  - destruct (py_truthy (lookup_step srv w st req)); cbn.
    + now destruct (format_response w _ true).
    + destruct (route_request srv w req) as [tr [r|e]]; cbn; [|reflexivity].
      assert (Hs : (if py_truthy (cache_key req) && redis_client srv && py_truthy r
                    then store_in_cache srv w st (cache_key req) r else st) !! k'
                   = st !! k').
      { destruct (py_truthy (cache_key req) && redis_client srv && py_truthy r);
          [|reflexivity].
        apply store_in_cache_frame. intros k. now apply Hk. }
      now destruct (format_response w r false).
  - reflexivity.
Qed.

Lemma receive_writes_only_its_key_witness :
  out_store (receive_client_request (Demo.server Demo.calm) Demo.calm Demo.warm
               (PDict [("db_type", PStr "sqlite"); ("operation", PStr "select");
                       ("query", PStr "SELECT 1"); ("cache_key", PStr "other")]))
    !! "sqlite_tables"
  = Demo.warm !! "sqlite_tables".
Proof.
  apply (receive_writes_only_its_key (Demo.server Demo.calm) Demo.calm Demo.warm).
  intros req k Hreq. vm_compute in Hreq. injection Hreq as <-. cbn.
  intros [= <-]. discriminate.
Defined.

Lemma receive_result_cases srv w st raw env :
  out_result (receive_client_request srv w st raw) = Ok env ->
  exists ts,
    src_stat w = Ok ts /\
    ((exists d b, env = success_envelope ts d b /\
                  (b = true -> out_store (receive_client_request srv w st raw) = st /\
                               out_trace (receive_client_request srv w st raw) = [])) \/
     (exists m, env = error_envelope ts m /\
                out_store (receive_client_request srv w st raw) = st)).
Proof.
  destruct (src_stat w) as [ts|e] eqn:Ht.
  - intros Hres. exists ts. split; [reflexivity|].
    destruct (parse_request raw) as [req|e] eqn:Hp.
    + destruct (py_truthy (lookup_step srv w st req)) eqn:Hhit.
      * rewrite (receive_cache_hit srv w st raw ts req Ht Hp Hhit) in *. cbn in *.
        injection Hres as <-. left. eauto.
      * destruct (route_request srv w req) as [tr [r|e]] eqn:Hr.
        -- rewrite (receive_route_ok srv w st raw ts req tr r Ht Hp Hhit Hr) in *.
           cbn in *. injection Hres as <-. left. do 2 eexists. split; [reflexivity|].
           discriminate.
        -- rewrite (receive_route_error srv w st raw ts req tr e Ht Hp Hhit Hr) in *.
           cbn in *. injection Hres as <-. right. eauto.
    + rewrite (receive_parse_error srv w st raw ts e Ht Hp) in *. cbn in *.
      injection Hres as <-. right. eauto.
  - intros Hres. rewrite (receive_propagates_stat_failure srv w st raw e Ht) in Hres.
    discriminate.
Qed.

(** X10.  Every envelope carries exactly one payload.  A success envelope
    has "data" and a boolean "from_cache" and no "error"; an error envelope
    has a string "error" and neither "data" nor "from_cache".  Both carry
    the modification time read during the call as "timestamp". *)
Theorem envelope_has_one_payload :
  forall (srv : Server) (w : World) (st : gmap string cache_text) (raw env : pyval),
    out_result (receive_client_request srv w st raw) = Ok env ->
    (exists ts, src_stat w = Ok ts /\ field "timestamp" env = Some (PStr ts)) /\
    ((field "status" env = Some (PStr "success") /\
      (exists d, field "data" env = Some d) /\
      (exists b, field "from_cache" env = Some (PBool b)) /\
      field "error" env = None) \/
     (field "status" env = Some (PStr "error") /\
      (exists m, field "error" env = Some (PStr m)) /\
      field "data" env = None /\
      field "from_cache" env = None)).
Proof.
  intros srv w st raw env Hres.
  destruct (receive_result_cases srv w st raw env Hres)
    as (ts & Ht & [(d & b & -> & _)|(m & -> & _)]).
  - split; [exists ts; auto|]. left. cbn. repeat split; eauto.
  - split; [exists ts; auto|]. right. cbn. repeat split; eauto.
Qed.

Lemma envelope_has_one_payload_witness :
  field "from_cache" (error_envelope "1718000000.5" "Unsupported database type: oracle")
    = None.
Proof.
  assert (Hres : out_result (receive_client_request (Demo.server Demo.calm) Demo.calm ∅
                               Demo.oracle_request)
                 = Ok (error_envelope "1718000000.5" "Unsupported database type: oracle"))
    by reflexivity.
  destruct (envelope_has_one_payload (Demo.server Demo.calm) Demo.calm ∅
              Demo.oracle_request _ Hres) as [_ [(Hs & _)|(_ & _ & _ & Hf)]].
  - discriminate Hs.
  - exact Hf.
Defined.

(** X11.  The store is written only by a call that answers with a fresh
    success: when the envelope is an error or says [from_cache] true, the
    store is what it was; and a call served from the cache calls no
    driver. *)
Theorem only_fresh_success_writes :
  forall (srv : Server) (w : World) (st : gmap string cache_text) (raw env : pyval),
    out_result (receive_client_request srv w st raw) = Ok env ->
    (field "status" env = Some (PStr "error") \/
     field "from_cache" env = Some (PBool true)) ->
    out_store (receive_client_request srv w st raw) = st /\
    (field "from_cache" env = Some (PBool true) ->
     out_trace (receive_client_request srv w st raw) = []).
Proof.
  intros srv w st raw env Hres Hkind.
  destruct (receive_result_cases srv w st raw env Hres)
    as (ts & Ht & [(d & b & -> & Hb)|(m & -> & Hst)]).
  - destruct Hkind as [Hk|Hk]; cbn in Hk; [discriminate|].
    injection Hk as ->. destruct (Hb eq_refl). auto.
  - split; [exact Hst|]. cbn. discriminate.
Qed.

Lemma only_fresh_success_writes_witness :
  out_store (receive_client_request (Demo.server Demo.calm) Demo.calm Demo.warm
               Demo.oracle_request) = Demo.warm /\
  out_trace (receive_client_request (Demo.server Demo.calm) Demo.calm Demo.warm
               Demo.oracle_request) = [].
Proof.
  assert (Hres : out_result (receive_client_request (Demo.server Demo.calm) Demo.calm
                               Demo.warm Demo.oracle_request)
                 = Ok (success_envelope "1718000000.5"
                         (PList [PDict [("name", PStr "users")]]) true))
    by reflexivity.
  destruct (only_fresh_success_writes (Demo.server Demo.calm) Demo.calm Demo.warm
              Demo.oracle_request _ Hres (or_intror eq_refl)) as [Hs Ht].
  split; [exact Hs|exact (Ht eq_refl)].
Defined.

(** X12.  A lookup that finds nothing usable under the key (nothing, a text
    that is no JSON, a falsy value, or a [get] that raises) is followed,
    when the handler returns a truthy result and Redis accepts the write, by
    storing that result under the key, in place of whatever was there; the
    envelope says [from_cache] false. *)
Theorem miss_populates_the_cache :
  forall (srv : Server) (w : World) (st : gmap string cache_text) (raw : pyval)
         (req : DatabaseRequest) (tr : list Event) (r : pyval)
         (ts k : string) (ttl : pyval),
    redis_client srv = true ->
    parse_request raw = Ok req ->
    py_truthy (cache_key req) = true ->
    redis_key (cache_key req) = Ok k ->
    configured_ttl srv = Ok ttl ->
    redis_setex_exn w (cache_key req) ttl = None ->
    py_truthy (check_cache srv w st (cache_key req)) = false ->
    route_request srv w req = (tr, Ok r) ->
    py_truthy r = true ->
    src_stat w = Ok ts ->
    receive_client_request srv w st raw =
      {| out_store := <[k := json_dumps r]> st; out_trace := tr;
         out_result := Ok (success_envelope ts r false) |}.
Proof.
  intros srv w st raw req tr r ts k ttl Hc Hp Hck Hk Httl Hs Hmiss Hr Hr1 Ht.
  rewrite (receive_route_ok srv w st raw ts req tr r Ht Hp); auto.
  - rewrite Hck, Hc, Hr1. cbn.
    now rewrite (store_in_cache_writes srv w st _ k ttl r Hc Httl Hs Hk).
  - unfold lookup_step. now rewrite Hck, Hc.
Qed.

Lemma miss_populates_the_cache_witness :
  Cases.corrupt !! "sqlite_tables" = Some (RawText "<html>502 Bad Gateway</html>") /\
  out_store (receive_client_request (Demo.server Demo.calm) Demo.calm Cases.corrupt
               Demo.sqlite_tables) !! "sqlite_tables"
    = Some (JsonText (PList (List.map PDict Demo.table_rows))).
Proof.
  split; [reflexivity|].
  rewrite (miss_populates_the_cache (Demo.server Demo.calm) Demo.calm Cases.corrupt
             Demo.sqlite_tables
             (Demo.parsed "sqlite" "select"
                (PStr "SELECT name FROM sqlite_master WHERE type='table'")
                (PDict []) (PStr "sqlite_tables"))
             [EvMakedirs (PStr "./data/app.db"); EvConnect Sqlite;
              EvExecute Sqlite (PStr "SELECT name FROM sqlite_master WHERE type='table'")
                        (PList []);
              EvFetchAll Sqlite]
             (PList (List.map PDict Demo.table_rows))
             "1718000000.5" "sqlite_tables" (PInt 3600)
             eq_refl eq_refl eq_refl eq_refl eq_refl eq_refl eq_refl eq_refl eq_refl
             eq_refl).
  reflexivity.
Defined.

Lemma hit_is_stable srv w (st : gmap string cache_text) raw req ts k v :
  redis_client srv = true ->
  parse_request raw = Ok req ->
  py_truthy (cache_key req) = true ->
  redis_key (cache_key req) = Ok k ->
  redis_get_exn w (cache_key req) = None ->
  st !! k = Some (JsonText v) ->
  py_truthy v = true ->
  src_stat w = Ok ts ->
  receive_client_request srv w st raw =
    {| out_store := st; out_trace := [];
       out_result := Ok (success_envelope ts v true) |}.
Proof.
  intros Hc Hp Hck Hk Hg He Hv Ht.
  assert (Hhit : lookup_step srv w st req = v).
  { unfold lookup_step. rewrite Hck, Hc. cbn.
    now apply (check_cache_json_entry srv w st _ k). }
  rewrite (receive_cache_hit srv w st raw ts req Ht Hp); now rewrite Hhit.
Qed.

(** X13.  Against a reachable Redis and an unchanged world, a request with
    a cache key whose handler returns a truthy result reaches the backend
    once: of [n + 1] calls in a row the first is answered by the backend
    and each of the [n] others from the cache, with the result as JSON
    carries it; the store is written once. *)
Theorem backend_is_reached_once :
  forall (srv : Server) (w : World) (st : gmap string cache_text) (raw : pyval)
         (req : DatabaseRequest) (tr : list Event) (r : pyval)
         (ts k : string) (ttl : pyval) (n : nat),
    redis_client srv = true ->
    parse_request raw = Ok req ->
    py_truthy (cache_key req) = true ->
    redis_key (cache_key req) = Ok k ->
    configured_ttl srv = Ok ttl ->
    redis_get_exn w (cache_key req) = None ->
    redis_setex_exn w (cache_key req) ttl = None ->
    py_truthy (check_cache srv w st (cache_key req)) = false ->
    route_request srv w req = (tr, Ok r) ->
    py_truthy r = true ->
    py_truthy (json_coerce r) = true ->
    src_stat w = Ok ts ->
    receive_n srv w raw (S n) st =
      (Ok (success_envelope ts r false)
         :: repeat (Ok (success_envelope ts (json_coerce r) true)) n,
       <[k := json_dumps r]> st).
Proof.
  intros srv w st raw req tr r ts k ttl n Hc Hp Hck Hk Httl Hg Hs Hmiss Hr Hr1 Hr2 Ht.
  cbn [receive_n].
  assert (Hfirst : receive_client_request srv w st raw =
                   {| out_store := <[k := json_dumps r]> st; out_trace := tr;
                      out_result := Ok (success_envelope ts r false) |}).
  { rewrite (receive_route_ok srv w st raw ts req tr r Ht Hp); auto.
    - rewrite Hck, Hc, Hr1. cbn.
      now rewrite (store_in_cache_writes srv w st _ k ttl r Hc Httl Hs Hk).
    - unfold lookup_step. now rewrite Hck, Hc. }
  rewrite Hfirst. cbn.
  assert (Hrest : receive_n srv w raw n (<[k := json_dumps r]> st) =
                  (repeat (Ok (success_envelope ts (json_coerce r) true)) n,
                   <[k := json_dumps r]> st)).
  { induction n as [|n IH]; cbn; [reflexivity|].
    rewrite (hit_is_stable srv w _ raw req ts k (json_coerce r)); auto.
    - cbn. now rewrite IH.
    - apply lookup_insert_eq. }
  now rewrite Hrest.
Qed.

Lemma backend_is_reached_once_witness :
  receive_n (Demo.server Demo.priced) Demo.priced Demo.sqlite_tables 3 ∅ =
    ([Ok (success_envelope "1718000000.5"
            (PList [PDict [("price", PObj "Decimal" "12.50" "Decimal('12.50')")]]) false);
      Ok (success_envelope "1718000000.5" (PList [PDict [("price", PStr "12.50")]]) true);
      Ok (success_envelope "1718000000.5" (PList [PDict [("price", PStr "12.50")]]) true)],
     <["sqlite_tables" := JsonText (PList [PDict [("price", PStr "12.50")]])]> ∅).
Proof.
  apply (backend_is_reached_once (Demo.server Demo.priced) Demo.priced ∅ Demo.sqlite_tables
           (Demo.parsed "sqlite" "select"
              (PStr "SELECT name FROM sqlite_master WHERE type='table'")
              (PDict []) (PStr "sqlite_tables"))
           [EvMakedirs (PStr "./data/app.db"); EvConnect Sqlite;
            EvExecute Sqlite (PStr "SELECT name FROM sqlite_master WHERE type='table'")
                      (PList []);
            EvFetchAll Sqlite]
           (PList (List.map PDict Demo.priced_rows))
           "1718000000.5" "sqlite_tables" (PInt 3600) 2);
    reflexivity.
Defined.

Lemma handle_sqlite_write srv w req op q p cur :
  operation req = PStr op ->
  query req = PStr q ->
  select_marked op q = false ->
  configured srv Sqlite ["db_path"] [p] ->
  os_makedirs w p = Ok tt ->
  sqlite_connect w p = Ok tt ->
  sqlite_execute w (query req) (sqlite_params req) = Ok cur ->
  sqlite_commit w = Ok tt ->
  handle_sqlite srv w req =
    ([EvMakedirs p; EvConnect Sqlite;
      EvExecute Sqlite (query req) (sqlite_params req); EvCommit Sqlite],
     Ok (PDict [("affected_rows", PInt (rowcount cur)); ("lastrowid", lastrowid cur)])).
Proof.
  intros Ho Hq Hw Hcfg Hmk Hconn Hex Hcommit.
  pose proof (relational_is_read_strings req op q Ho Hq) as Hread. rewrite Hw in Hread.
  invert_configured. cbn [backend_name] in *. unfold handle_sqlite.
  run_handler. reflexivity.
Qed.

(** X14.  The cache does not tell reads from writes.  A write to SQLite
    that carries a cache key is executed and committed by the first call,
    and its summary is cached; the same request sent again is answered from
    the cache with that summary, and nothing is executed. *)
Theorem repeated_write_runs_once :
  forall (srv : Server) (w : World) (st : gmap string cache_text) (raw : pyval)
         (req : DatabaseRequest) (op q : string) (p : pyval) (cur : Cursor Row)
         (ts k : string) (ttl : pyval),
    redis_client srv = true ->
    parse_request raw = Ok req ->
    db_type req = "sqlite" ->
    operation req = PStr op ->
    query req = PStr q ->
    select_marked op q = false ->
    py_truthy (cache_key req) = true ->
    redis_key (cache_key req) = Ok k ->
    configured_ttl srv = Ok ttl ->
    redis_get_exn w (cache_key req) = None ->
    redis_setex_exn w (cache_key req) ttl = None ->
    st !! k = None ->
    configured srv Sqlite ["db_path"] [p] ->
    os_makedirs w p = Ok tt ->
    sqlite_connect w p = Ok tt ->
    sqlite_execute w (query req) (sqlite_params req) = Ok cur ->
    sqlite_commit w = Ok tt ->
    json_native (lastrowid cur) = true ->
    src_stat w = Ok ts ->
    let summary := PDict [("affected_rows", PInt (rowcount cur));
                          ("lastrowid", lastrowid cur)] in
    let o1 := receive_client_request srv w st raw in
    let o2 := receive_client_request srv w (out_store o1) raw in
    out_trace o1 = [EvMakedirs p; EvConnect Sqlite;
                    EvExecute Sqlite (query req) (sqlite_params req); EvCommit Sqlite] /\
    out_result o1 = Ok (success_envelope ts summary false) /\
    out_trace o2 = [] /\
    out_result o2 = Ok (success_envelope ts summary true).
Proof.
  intros srv w st raw req op q p cur ts k ttl Hc Hp Hdb Ho Hq Hw Hck Hk Httl Hg Hs
         Hfresh Hcfg Hmk Hconn Hex Hcommit Hnat Ht summary o1 o2.
  assert (Hr : route_request srv w req =
               ([EvMakedirs p; EvConnect Sqlite;
                 EvExecute Sqlite (query req) (sqlite_params req); EvCommit Sqlite],
                Ok summary)).
  { rewrite (route_request_named srv w req Sqlite Hdb). cbn [handler].
    now apply (handle_sqlite_write srv w req op q p cur). }
  assert (Hco : json_coerce summary = summary).
  { subst summary. cbn. now rewrite (json_coerce_native _ Hnat). }
  destruct (second_call_returns_coerced srv w w st raw req _ summary ts ts k ttl
              Hc Hp Hck Hk Httl Hg Hs Hg Hfresh Hr eq_refl) as [H1 H2]; auto.
  subst o2 o1. rewrite H1. cbn [out_store out_trace out_result].
  rewrite H2. cbn [out_store out_trace out_result]. rewrite Hco. auto.
Qed.

Lemma repeated_write_runs_once_witness :
  let summary := PDict [("affected_rows", PInt 1); ("lastrowid", PInt 7)] in
  let o1 := receive_client_request (Demo.server Demo.calm) Demo.calm ∅
              Cases.insert_request in
  let o2 := receive_client_request (Demo.server Demo.calm) Demo.calm (out_store o1)
              Cases.insert_request in
  out_trace o1 = [EvMakedirs (PStr "./data/app.db"); EvConnect Sqlite;
                  EvExecute Sqlite (PStr "INSERT INTO t(name) VALUES (?)")
                            (PList [PStr "ada"]);
                  EvCommit Sqlite] /\
  out_result o1 = Ok (success_envelope "1718000000.5" summary false) /\
  out_trace o2 = [] /\
  out_result o2 = Ok (success_envelope "1718000000.5" summary true).
Proof.
  refine (repeated_write_runs_once (Demo.server Demo.calm) Demo.calm ∅
            Cases.insert_request Cases.insert_parsed
            "insert" "INSERT INTO t(name) VALUES (?)" (PStr "./data/app.db")
            {| description := Some ["name"]; fetchall := Ok Demo.table_rows;
               rowcount := 1; lastrowid := PInt 7 |}
            "1718000000.5" "ins" (PInt 3600)
            eq_refl eq_refl eq_refl eq_refl eq_refl eq_refl eq_refl eq_refl eq_refl
            eq_refl eq_refl eq_refl _ eq_refl eq_refl eq_refl eq_refl eq_refl eq_refl).
  eexists. exists (PBool true).
  split; [reflexivity|]. split; [reflexivity|]. split; [reflexivity|].
  repeat constructor.
Defined.

(* ===================================================================== *)
(** ** The handlers and their connections *)
(* ===================================================================== *)

(** X15.  The handlers of PostgreSQL, MySQL and MongoDB release what they
    open, on every path: either nothing was opened (the backend is
    unavailable or its configuration incomplete), or opening itself raised,
    or the driver calls of the handler end with closing the connection,
    whether the handler returns or raises. *)
Theorem connection_is_always_closed :
  forall (k : Backend) (srv : Server) (w : World) (req : DatabaseRequest)
         (tr : list Event) (r : result pyval),
    k <> Sqlite ->
    handler k srv w req = (tr, r) ->
    (tr = [] /\ exists e, r = Raise e) \/
    (tr = [EvConnect k] /\ exists e, r = Raise e) \/
    (exists mid, tr = EvConnect k :: mid ++ [EvClose k]).
Proof.
  intros k srv w req tr r Hk. destruct k; [congruence| | |]; cbn [handler].
  - unfold handle_postgresql, not_available. cbn -[finally]. split_steps;
      unfold finally; cbn [fst snd]; intros [= <- <-]; ends_with_close.
  - unfold handle_mysql, not_available. cbn -[finally]. split_steps;
      unfold finally; cbn [fst snd]; intros [= <- <-]; ends_with_close.
  - unfold handle_mongodb, not_available. cbn -[finally]. split_steps;
      unfold finally; cbn [fst snd]; intros [= <- <-]; ends_with_close.
Qed.

Lemma connection_is_always_closed_witness :
  exists mid,
    [EvConnect Postgresql;
     EvExecute Postgresql (PStr "SELECT name FROM t") (PDict []);
     EvClose Postgresql]
    = EvConnect Postgresql :: mid ++ [EvClose Postgresql].
Proof.
  assert (Hrun : handler Postgresql (Demo.server Cases.failing_statement)
                   Cases.failing_statement
                   (Demo.parsed "postgresql" "select" (PStr "SELECT name FROM t")
                      (PDict []) PNone)
                 = ([EvConnect Postgresql;
                     EvExecute Postgresql (PStr "SELECT name FROM t") (PDict []);
                     EvClose Postgresql],
                    Raise (Exn DriverError "relation t does not exist")))
    by reflexivity.
  assert (Hk : Postgresql <> Sqlite) by discriminate.
  destruct (connection_is_always_closed Postgresql _ _ _ _ _ Hk Hrun)
    as [[H _]|[[H _]|H]]; [discriminate H|discriminate H|exact H].
Defined.

(** X16.  A relational handler commits only what it executed as a write: a
    [commit] among its driver calls means that the statement ran without
    raising and that the request was not classified as a read.  The
    document-store handler never commits. *)
Theorem commit_follows_an_executed_write :
  forall (k : Backend) (srv : Server) (w : World) (req : DatabaseRequest)
         (tr : list Event) (r : result pyval),
    handler k srv w req = (tr, r) ->
    In (EvCommit k) tr ->
    statement_ran k w req /\ relational_is_read req = Ok false.
Proof.
  intros k srv w req tr r.
  destruct k; cbn [handler statement_ran].
  - unfold handle_sqlite. cbn. split_all_steps;
      intros [= <- <-] Hin; cbn in Hin;
      repeat (destruct Hin as [Hin|Hin]; try discriminate Hin); try contradiction;
      eauto.
  - unfold handle_postgresql, not_available, finally. cbn. split_all_steps;
      intros [= <- <-] Hin; cbn in Hin;
      repeat (destruct Hin as [Hin|Hin]; try discriminate Hin); try contradiction;
      eauto.
  - unfold handle_mysql, not_available, finally, iter_description. cbn. split_all_steps;
      intros [= <- <-] Hin; cbn in Hin;
      repeat (destruct Hin as [Hin|Hin]; try discriminate Hin); try contradiction;
      eauto.
  - unfold handle_mongodb, not_available, finally. cbn. split_all_steps;
      intros [= <- <-] Hin; cbn in Hin;
      repeat (destruct Hin as [Hin|Hin]; try discriminate Hin); try contradiction.
Qed.

Lemma commit_follows_an_executed_write_witness :
  statement_ran Mysql Demo.calm
    (Demo.parsed "mysql" "update" (PStr "UPDATE t SET name = 'x'") (PDict []) PNone) /\
  relational_is_read
    (Demo.parsed "mysql" "update" (PStr "UPDATE t SET name = 'x'") (PDict []) PNone)
    = Ok false.
Proof.
  apply (commit_follows_an_executed_write Mysql (Demo.server Demo.calm) Demo.calm
           (Demo.parsed "mysql" "update" (PStr "UPDATE t SET name = 'x'") (PDict []) PNone)
           [EvConnect Mysql;
            EvExecute Mysql (PStr "UPDATE t SET name = 'x'") (PDict []);
            EvCommit Mysql; EvClose Mysql]
           (Ok (PDict [("affected_rows", PInt 1)]))).
  - reflexivity.
  - cbn. tauto.
Defined.

(** X17.  A write to SQLite that carries no query fails on the missing
    [lower] of [None] before anything is executed: the database file is
    opened, no statement runs, nothing is committed. *)
Theorem sqlite_without_query_runs_nothing :
  forall (srv : Server) (w : World) (req : DatabaseRequest) (op : string) (p : pyval),
    operation req = PStr op ->
    str_lower op <> "select" ->
    query req = PNone ->
    configured srv Sqlite ["db_path"] [p] ->
    os_makedirs w p = Ok tt ->
    sqlite_connect w p = Ok tt ->
    handle_sqlite srv w req =
      ([EvMakedirs p; EvConnect Sqlite],
       Raise (Exn AttributeError "'NoneType' object has no attribute 'lower'")).
Proof.
  intros srv w req op p Ho Hns Hq Hcfg Hmk Hconn.
  invert_configured. cbn [backend_name] in *. unfold handle_sqlite.
  run_handler. unfold relational_is_read. rewrite Ho, Hq. cbn.
  apply String.eqb_neq in Hns. now rewrite Hns.
Qed.

Lemma sqlite_without_query_runs_nothing_witness :
  handle_sqlite (Demo.server Demo.calm) Demo.calm Cases.no_query =
    ([EvMakedirs (PStr "./data/app.db"); EvConnect Sqlite],
     Raise (Exn AttributeError "'NoneType' object has no attribute 'lower'")).
Proof.
  refine (sqlite_without_query_runs_nothing (Demo.server Demo.calm) Demo.calm
            Cases.no_query "insert" (PStr "./data/app.db")
            eq_refl _ eq_refl _ eq_refl eq_refl).
  - discriminate.
  - eexists. exists (PBool true).
    split; [reflexivity|]. split; [reflexivity|]. split; [reflexivity|].
    repeat constructor.
Defined.

(* ===================================================================== *)
(** ** The document store *)
(* ===================================================================== *)

(** X18.  The document-store handler builds its client before it looks at
    the request.  An operation that is none of the four names (a string in
    another spelling, the empty default, or no string at all) is rejected
    with its [str()] in the message, and null parameters fail on the
    missing [get]; in both cases the client was opened and is closed, and
    no collection is touched. *)
Theorem mongo_bad_request_opens_and_closes :
  forall (srv : Server) (w : World) (req : DatabaseRequest) (db : pyval),
    mongo_ready srv w db ->
    (py_eq_str (operation req) "find" = false ->
     py_eq_str (operation req) "insert" = false ->
     py_eq_str (operation req) "update" = false ->
     py_eq_str (operation req) "delete" = false ->
     handle_mongodb srv w req =
       ([EvConnect Mongodb; EvClose Mongodb],
        Raise (Exn ValueError
                 ("Unsupported MongoDB operation: " +:+ py_str (operation req))))) /\
    (py_eq_str (operation req) "find" = true ->
     parameters req = PNone ->
     handle_mongodb srv w req =
       ([EvConnect Mongodb; EvClose Mongodb],
        Raise (Exn AttributeError "'NoneType' object has no attribute 'get'"))).
Proof.
  intros srv w req db (Hlib & host & port & Hcfg & Hcl).
  invert_configured. cbn [backend_name] in *.
  split.
  - intros Hf Hi Hu Hd. unfold handle_mongodb, not_available.
    run_handler. unfold finally. run_handler. now rewrite Hf, Hi, Hu, Hd.
  - intros Hf Hp. unfold handle_mongodb, not_available.
    run_handler. unfold finally. run_handler. now rewrite Hp.
Qed.

Lemma mongo_bad_request_opens_and_closes_witness :
  handle_mongodb (Demo.server Demo.calm) Demo.calm
      (Demo.parsed "mongodb" "find" PNone PNone PNone) =
    ([EvConnect Mongodb; EvClose Mongodb],
     Raise (Exn AttributeError "'NoneType' object has no attribute 'get'")).
Proof.
  refine (proj2 (mongo_bad_request_opens_and_closes (Demo.server Demo.calm) Demo.calm
                   (Demo.parsed "mongodb" "find" PNone PNone PNone) (PStr "mcp_db") _)
                eq_refl eq_refl).
  split; [reflexivity|].
  exists (PStr "localhost"), (PInt 27017). split; [|reflexivity].
  eexists. exists (PBool true).
  split; [reflexivity|]. split; [reflexivity|]. split; [reflexivity|].
  repeat constructor.
Defined.

(** X19.  The identifier an insert reports and the identifier a later find
    shows are the same string: both are the [str()] of the identifier the
    driver gave.  Whenever the found documents include one whose [_id] is
    the inserted identifier, that document comes back with [_id] equal to
    the reported [inserted_id]. *)
Theorem inserted_id_is_found_again :
  forall (srv : Server) (w : World) (db : pyval) (req_i req_f : DatabaseRequest)
         (coll doc q id : pyval) (docs : list Row),
    mongo_ready srv w db ->
    operation req_i = PStr "insert" ->
    py_get (parameters req_i) "collection" (PStr "default") = Ok coll ->
    py_get (parameters req_i) "document" (PDict []) = Ok doc ->
    mongo_insert_one w db coll doc = Ok id ->
    operation req_f = PStr "find" ->
    py_get (parameters req_f) "collection" (PStr "default") = Ok coll ->
    py_get (parameters req_f) "query" (PDict []) = Ok q ->
    mongo_find w db coll q = Ok docs ->
    exists found,
      snd (handle_mongodb srv w req_i) = Ok (PDict [("inserted_id", PStr (py_str id))]) /\
      snd (handle_mongodb srv w req_f) = Ok (PList found) /\
      (forall d, In d docs -> dict_lookup "_id" d = Some id ->
                 exists d', In (PDict d') found /\
                            dict_lookup "_id" d' = Some (PStr (py_str id)) /\
                            forall k, k <> "_id" -> dict_lookup k d' = dict_lookup k d).
Proof.
  intros srv w db req_i req_f coll doc q id docs (Hlib & host & port & Hcfg & Hcl)
         Hoi Hci Hdi Hins Hof Hcf Hqf Hfind.
  invert_configured. cbn [backend_name] in *.
  exists (List.map (fun d => PDict (stringify_id d)) docs).
  split; [|split].
  - unfold handle_mongodb, not_available.
    run_handler. unfold finally. run_handler. rewrite Hoi. cbn. run_handler. reflexivity.
  - unfold handle_mongodb, not_available.
    run_handler. unfold finally. run_handler. rewrite Hof. cbn. run_handler. reflexivity.
  - intros d Hin Hid. exists (stringify_id d).
    split; [|split].
    + apply List.in_map_iff. now exists d.
    + unfold stringify_id. rewrite Hid. apply dict_lookup_set_eq.
    + intros k Hk. unfold stringify_id. rewrite Hid.
      apply dict_lookup_set_ne. congruence.
Qed.

Lemma inserted_id_is_found_again_witness :
  exists found,
    snd (handle_mongodb (Demo.server Demo.calm) Demo.calm
           (Demo.parsed "mongodb" "insert" PNone
              (PDict [("document", PDict [("name", PStr "ada")])]) PNone))
      = Ok (PDict [("inserted_id", PStr "65a1f0")]) /\
    snd (handle_mongodb (Demo.server Demo.calm) Demo.calm
           (Demo.parsed "mongodb" "find" PNone (PDict []) PNone))
      = Ok (PList found) /\
    (forall d, In d Demo.documents ->
               dict_lookup "_id" d = Some (PObj "ObjectId" "65a1f0" "ObjectId('65a1f0')") ->
               exists d', In (PDict d') found /\
                          dict_lookup "_id" d' = Some (PStr "65a1f0") /\
                          forall k, k <> "_id" -> dict_lookup k d' = dict_lookup k d).
Proof.
  refine (inserted_id_is_found_again (Demo.server Demo.calm) Demo.calm (PStr "mcp_db")
            (Demo.parsed "mongodb" "insert" PNone
               (PDict [("document", PDict [("name", PStr "ada")])]) PNone)
            (Demo.parsed "mongodb" "find" PNone (PDict []) PNone)
            (PStr "default") (PDict [("name", PStr "ada")]) (PDict [])
            (PObj "ObjectId" "65a1f0" "ObjectId('65a1f0')") Demo.documents
            _ eq_refl eq_refl eq_refl eq_refl eq_refl eq_refl eq_refl eq_refl).
  split; [reflexivity|].
  exists (PStr "localhost"), (PInt 27017). split; [|reflexivity].
  eexists. exists (PBool true).
  split; [reflexivity|]. split; [reflexivity|]. split; [reflexivity|].
  repeat constructor.
Defined.

(* ===================================================================== *)
(** ** The constructor *)
(* ===================================================================== *)

(** X20.  Built without a configuration, or with an empty one, the server
    takes the default configuration and the constructor does not raise; it
    holds a cache client exactly when the Redis library is installed and
    Redis on localhost:6379 answers the ping. *)
Theorem init_with_defaults :
  forall (w : World) (cfg : pyval),
    py_truthy cfg = false ->
    init w cfg =
      Ok {| config := load_default_config w;
            redis_client :=
              REDIS_AVAILABLE w && ping_answers w (PStr "localhost") (PInt 6379) |}.
Proof.
  intros w cfg Hf. unfold init, ping_answers. rewrite Hf.
  destruct (REDIS_AVAILABLE w) eqn:Hr; cbn; [|reflexivity].
  unfold load_default_config. cbn. rewrite Hr. cbn.
  now destruct (redis_ping w (PStr "localhost") (PInt 6379)).
Qed.

Lemma init_with_defaults_witness :
  init Cases.failing_statement (PDict []) =
    Ok {| config := load_default_config Cases.failing_statement;
          redis_client := false |}.
Proof.
  apply (init_with_defaults Cases.failing_statement (PDict [])). reflexivity.
Defined.

(** X21.  A server the constructor returned keeps the configuration it was
    given (the default one for a falsy argument).  If it holds a cache
    client, the Redis library is installed, a ping was answered, and the
    "redis" section is a mapping, so that reading the time-to-live for a
    cache write cannot fail. *)
Theorem init_cache_client_is_configured :
  forall (w : World) (cfg : pyval) (srv : Server),
    init w cfg = Ok srv ->
    config srv = (if py_truthy cfg then cfg else load_default_config w) /\
    (redis_client srv = true ->
     REDIS_AVAILABLE w = true /\
     (exists host port, redis_ping w host port = None) /\
     (exists ttl, configured_ttl srv = Ok ttl)).
Proof.
  intros w cfg srv. unfold init.
  set (c := if py_truthy cfg then cfg else load_default_config w).
  destruct (REDIS_AVAILABLE w) eqn:Hr; cbn.
  - destruct (py_get c "redis" (PDict [])) as [r|e] eqn:Hget; cbn; [|discriminate].
    destruct (py_get r "enabled" (PBool false)) as [en|e] eqn:Hen; cbn; [|discriminate].
    destruct (py_truthy en); cbn.
    + destruct (py_getitem c "redis") as [r'|e] eqn:Hitem; cbn.
      * destruct (py_get r' "host" (PStr "localhost")) as [host|e] eqn:Hh; cbn.
        -- destruct (py_get r' "port" (PInt 6379)) as [port|e] eqn:Hpo; cbn.
           ++ destruct (redis_ping w host port) eqn:Hping; cbn;
                intros [= <-]; cbn; (split; [reflexivity|]); try discriminate.
              intros _. split; [reflexivity|]. split; [eauto|].
              unfold configured_ttl. cbn. rewrite Hitem. cbn.
              destruct r'; try discriminate. cbn; eauto.
           ++ intros [= <-]. cbn. split; [reflexivity|discriminate].
        -- intros [= <-]. cbn. split; [reflexivity|discriminate].
      * intros [= <-]. cbn. split; [reflexivity|discriminate].
    + intros [= <-]. cbn. split; [reflexivity|discriminate].
  - intros [= <-]. cbn. split; [reflexivity|discriminate].
Qed.

Lemma init_cache_client_is_configured_witness :
  config (Demo.server Demo.calm) = load_default_config Demo.calm /\
  (redis_client (Demo.server Demo.calm) = true ->
   REDIS_AVAILABLE Demo.calm = true /\
   (exists host port, redis_ping Demo.calm host port = None) /\
   (exists ttl, configured_ttl (Demo.server Demo.calm) = Ok ttl)).
Proof.
  apply (init_cache_client_is_configured Demo.calm PNone (Demo.server Demo.calm)).
  reflexivity.
Defined.

(** X22.  The constructor raises in one situation only: the Redis library
    is installed and the configuration given, or its "redis" entry, is no
    mapping; the exception is then the [AttributeError] of the missing
    [get].  A Redis that cannot be reached never makes it raise. *)
Theorem init_raises_only_on_non_mapping :
  forall (w : World) (cfg : pyval) (e : exn),
    init w cfg = Raise e ->
    REDIS_AVAILABLE w = true /\
    py_truthy cfg = true /\
    exn_cls e = AttributeError /\
    ((forall kvs, cfg <> PDict kvs) \/
     (exists r, py_get cfg "redis" (PDict []) = Ok r /\ forall kvs, r <> PDict kvs)).
Proof.
  intros w cfg e Hi.
  destruct (py_truthy cfg) eqn:Hc.
  - unfold init in Hi. rewrite Hc in Hi.
    destruct (REDIS_AVAILABLE w) eqn:Hr; cbn in Hi.
    + split; [reflexivity|]. split; [reflexivity|].
      destruct (py_get cfg "redis" (PDict [])) as [r|e0] eqn:Hget; cbn in Hi.
      * destruct (py_get r "enabled" (PBool false)) as [en|e1] eqn:Hen; cbn in Hi.
        -- destruct (py_truthy en); cbn in Hi.
           ++ destruct (let? r0 := py_getitem cfg "redis" in
                        let? host := py_get r0 "host" (PStr "localhost") in
                        let? port := py_get r0 "port" (PInt 6379) in
                        match redis_ping w host port with
                        | Some e2 => Raise e2
                        | None => Ok ()
                        end); discriminate.
           ++ discriminate.
        -- injection Hi as <-. destruct r; try discriminate;
             cbn in Hen; injection Hen as <-;
             (split; [reflexivity|]); right; eexists; (split; [reflexivity|]);
             intros kvs; discriminate.
      * injection Hi as <-. destruct cfg; try discriminate;
          cbn in Hget; injection Hget as <-;
          (split; [reflexivity|]); left; intros kvs; discriminate.
    + destruct (redis_ping w (PStr "localhost") (PInt 6379)); discriminate.
  - unfold init in Hi. rewrite Hc in Hi.
    destruct (REDIS_AVAILABLE w) eqn:Hr; cbn in Hi; [|discriminate].
    unfold load_default_config in Hi. cbn in Hi. rewrite Hr in Hi. cbn in Hi.
    destruct (redis_ping w (PStr "localhost") (PInt 6379)); discriminate.
Qed.

Lemma init_raises_only_on_non_mapping_witness :
  REDIS_AVAILABLE Demo.calm = true /\
  py_truthy (PDict [("redis", PBool true)]) = true /\
  exn_cls (Exn AttributeError "'bool' object has no attribute 'get'") = AttributeError /\
  ((forall kvs, PDict [("redis", PBool true)] <> PDict kvs) \/
   (exists r, py_get (PDict [("redis", PBool true)]) "redis" (PDict []) = Ok r /\
              forall kvs, r <> PDict kvs)).
Proof.
  apply (init_raises_only_on_non_mapping Demo.calm (PDict [("redis", PBool true)])).
  reflexivity.
Defined.

(* ===================================================================== *)
(** ** Cache writes and the answer *)
(* ===================================================================== *)

(** X23.  Whether the cache write goes through has no bearing on the
    call: with any other behaviour of [setex], the caller gets the same
    envelope (or exception) and the same driver calls are made.  Only the
    store left behind can differ. *)
Theorem cache_write_failure_is_silent :
  forall (srv : Server) (w : World) (f : pyval -> pyval -> option exn)
         (st : gmap string cache_text) (raw : pyval),
    out_result (receive_client_request srv (with_setex_fault w f) st raw) =
      out_result (receive_client_request srv w st raw) /\
    out_trace (receive_client_request srv (with_setex_fault w f) st raw) =
      out_trace (receive_client_request srv w st raw).
Proof.
  intros srv w f st raw. unfold receive_client_request, pipeline.
  destruct (parse_request raw) as [req|e]; cbn; [|split; reflexivity].
  change (lookup_step srv (with_setex_fault w f) st req) with (lookup_step srv w st req).
  change (route_request srv (with_setex_fault w f) req) with (route_request srv w req).
  destruct (py_truthy (lookup_step srv w st req)); cbn.
  - change (format_response (with_setex_fault w f)) with (format_response w).
    destruct (format_response w (lookup_step srv w st req) true); cbn;
      split; reflexivity.
  - destruct (route_request srv w req) as [tr [r|e]]; cbn.
    + change (format_response (with_setex_fault w f)) with (format_response w).
      destruct (format_response w r false); cbn; split; reflexivity.
    + split; reflexivity.
Qed.
